(** * CodeAlive context-engine skill: client, search formatter, explore workflows

    A shallow embedding of
      - [scripts/lib/api_client.py]  (class [CodeAliveClient]),
      - [scripts/search.py]          ([format_search_results], [main]),
      - [scripts/explore.py]         (the five [explore_*] workflows),
    followed by the properties the specification states about them.

    Python values that come out of [json.loads] are modelled by [json];
    Python exceptions by [exn]; a pure expression by [res]; code that
    talks to the outside (network, subprocesses, credential store,
    terminal) by a value of [M A]: its outcome together with the events
    it emitted, in order.  What the outside answers is a [Host].

    Conventions of the model:
      - a [str] is the sequence of its UTF-8 bytes; [strip] removes the
        whitespace characters of [str.isspace], in their UTF-8 form, and
        [lower] is exact on ASCII text;
      - the client is modelled for base URLs that [urllib.request.Request]
        accepts; the [ValueError] for a URL it refuses (no scheme) is
        modelled in [verify_key] of [setup.py], which takes it from the
        host ([url_refused]);
      - a [print] to the standard output fails ([UnicodeEncodeError], from
        the host's [stdout_refuses]) only where [explore.py] prints its
        docstring outside the [try]; elsewhere the text is taken to be
        encodable;
      - HTTP bodies are valid UTF-8, and [json.loads], [str()] of floats
        and containers, and [format(x, ".2f")] are the host's;
      - a JSON number is finite; a [float] is given by its exact value;
      - the exceptions a subprocess or the credential store may raise are
        subclasses of [Exception]. *)

From Stdlib Require Import String Ascii List ZArith QArith Bool Lia DecimalString.
Import ListNotations.
Open Scope list_scope.
Open Scope string_scope.
Set Warnings "-register-all".

(* ===================================================================== *)
(** * Python strings *)
(* ===================================================================== *)

Module PyStr.

(** The line feed and the double quote, which a literal cannot hold. *)
Definition nl : string := String (ascii_of_nat 10) EmptyString.
Definition dquote : string := String (ascii_of_nat 34) EmptyString.

(** [str(n)] for an [int]. *)
Definition of_Z (z : Z) : string := NilZero.string_of_int (Z.to_int z).
Definition of_nat (n : nat) : string := of_Z (Z.of_nat n).

(** Whitespace as [str.strip()] sees it, by the UTF-8 bytes of each
    character.  One byte: TAB..CR, FS..US and the space. *)
Definition is_space (c : ascii) : bool :=
  let n := nat_of_ascii c in
  ((9 <=? n) && (n <=? 13) || (28 <=? n) && (n <=? 32))%nat.

(** Two bytes: U+0085 and U+00A0. *)
Definition is_space2 (a b : ascii) : bool :=
  let '(a, b) := (nat_of_ascii a, nat_of_ascii b) in
  ((a =? 194) && ((b =? 133) || (b =? 160)))%nat.

(** Three bytes: U+1680, U+2000..U+200A, U+2028, U+2029, U+202F, U+205F
    and U+3000. *)
Definition is_space3 (a b c : ascii) : bool :=
  let '(a, b, c) := (nat_of_ascii a, nat_of_ascii b, nat_of_ascii c) in
  ((a =? 225) && (b =? 154) && (c =? 128)
   || (a =? 226) && (b =? 128)
      && ((128 <=? c) && (c <=? 138) || (c =? 168) || (c =? 169) || (c =? 175))
   || (a =? 226) && (b =? 129) && (c =? 159)
   || (a =? 227) && (b =? 128) && (c =? 128))%nat.

(** [s.lstrip()]; with [back], the same on the bytes in reverse order. *)
Fixpoint lstrip_bytes (back : bool) (s : string) : string :=
  match s with
  | String a r =>
      if is_space a then lstrip_bytes back r
      else
        match r with
        | String b r' =>
            if (if back then is_space2 b a else is_space2 a b)
            then lstrip_bytes back r'
            else
              match r' with
              | String c r'' =>
                  if (if back then is_space3 c b a else is_space3 a b c)
                  then lstrip_bytes back r''
                  else s
              | EmptyString => s
              end
        | EmptyString => s
        end
  | EmptyString => EmptyString
  end.

Definition lstrip (s : string) : string := lstrip_bytes false s.

Definition rev (s : string) : string :=
  string_of_list_ascii (List.rev (list_ascii_of_string s)).

(** [s.rstrip()] *)
Definition rstrip (s : string) : string := rev (lstrip_bytes true (rev s)).

(** [s.strip()] *)
Definition strip (s : string) : string := rstrip (lstrip s).

(** [sub in s] for two strings. *)
Fixpoint contains (sub s : string) : bool :=
  prefix sub s ||
  match s with
  | String _ r => contains sub r
  | EmptyString => false
  end.

(** [s.split("::")], the only separator the scripts split on.  [cur] is
    the piece being read, reversed. *)
Fixpoint split_colons_from (cur : string) (s : string) : list string :=
  match s with
  | String ":" (String ":" r) => rev cur :: split_colons_from EmptyString r
  | String c r => split_colons_from (String c cur) r
  | EmptyString => [rev cur]
  end.

Definition split_colons (s : string) : list string :=
  split_colons_from EmptyString s.

(** [sep.join(l)] *)
Definition join (sep : string) (l : list string) : string := String.concat sep l.

(** [s * n] *)
Fixpoint repeat (s : string) (n : nat) : string :=
  match n with
  | O => EmptyString
  | S k => s ++ repeat s k
  end.

(** [s.lower()] on ASCII letters. *)
Definition lower_ascii (c : ascii) : ascii :=
  let n := nat_of_ascii c in
  if ((65 <=? n) && (n <=? 90))%nat then ascii_of_nat (n + 32) else c.

Fixpoint lower (s : string) : string :=
  match s with
  | String c r => String (lower_ascii c) (lower r)
  | EmptyString => EmptyString
  end.

(** Truthiness of a [str]. *)
Definition nonempty (s : string) : bool :=
  match s with EmptyString => false | String _ _ => true end.

End PyStr.

(* ===================================================================== *)
(** * Python values decoded from JSON *)
(* ===================================================================== *)

(** A [dict] with string keys, in insertion order.  [dict_get] reads the
    first binding of a key and [dict_set] overwrites it in place, so a
    dictionary built with [dict_set] never holds a key twice. *)
Definition dict (V : Type) : Type := list (string * V).

Fixpoint dict_get {V} (d : dict V) (k : string) : option V :=
  match d with
  | [] => None
  | (k', v) :: r => if String.eqb k' k then Some v else dict_get r k
  end.

Fixpoint dict_set {V} (d : dict V) (k : string) (v : V) : dict V :=
  match d with
  | [] => [(k, v)]
  | (k', v') :: r =>
      if String.eqb k' k then (k', v) :: r else (k', v') :: dict_set r k v
  end.

Definition dict_mem {V} (d : dict V) (k : string) : bool :=
  match dict_get d k with Some _ => true | None => false end.

(** The values [json.loads] produces: [None], [bool], [int], [float]
    (a finite number, given by its exact value), [str], [list], [dict]. *)
Inductive json : Type :=
| JNull
| JBool (b : bool)
| JInt (z : Z)
| JFloat (q : Q)
| JString (s : string)
| JList (l : list json)
| JObject (d : dict json).

(** [type(v).__name__] *)
Definition type_name (v : json) : string :=
  match v with
  | JNull => "NoneType"
  | JBool _ => "bool"
  | JInt _ => "int"
  | JFloat _ => "float"
  | JString _ => "str"
  | JList _ => "list"
  | JObject _ => "dict"
  end.

(** [bool(v)] *)
Definition truthy (v : json) : bool :=
  match v with
  | JNull => false
  | JBool b => b
  | JInt z => negb (z =? 0)%Z
  | JFloat q => negb (Qeq_bool q 0)
  | JString s => PyStr.nonempty s
  | JList l => match l with [] => false | _ :: _ => true end
  | JObject d => match d with [] => false | _ :: _ => true end
  end.

(** The numeric value of a [bool], [int] or [float]. *)
Definition num_of (v : json) : option Q :=
  match v with
  | JBool b => Some (inject_Z (if b then 1 else 0))
  | JInt z => Some (inject_Z z)
  | JFloat q => Some q
  | _ => None
  end.

(** [a == b]: numbers by value, strings and [None] by identity of value,
    lists element by element, dictionaries key by key. *)
Fixpoint py_eqb (a b : json) {struct a} : bool :=
  match a, b with
  | JNull, JNull => true
  | JString s, JString t => String.eqb s t
  | JList l1, JList l2 =>
      (fix all2 (xs ys : list json) {struct xs} : bool :=
         match xs, ys with
         | [], [] => true
         | x :: xs', y :: ys' => py_eqb x y && all2 xs' ys'
         | _, _ => false
         end) l1 l2
  | JObject d1, JObject d2 =>
      Nat.eqb (length d1) (length d2) &&
      (fix all1 (d : dict json) {struct d} : bool :=
         match d with
         | [] => true
         | (k, v) :: r =>
             match dict_get d2 k with
             | Some v' => py_eqb v v'
             | None => false
             end && all1 r
         end) d1
  | _, _ =>
      match num_of a, num_of b with
      | Some x, Some y => Qeq_bool x y
      | _, _ => false
      end
  end.

(* ===================================================================== *)
(** * Exceptions and the two monads *)
(* ===================================================================== *)

(** The exception classes the scripts raise or let through. *)
Inductive exn : Type :=
| ValueError (msg : string)
| PlainException (msg : string)          (* raise Exception(msg) *)
| AttributeError (ty attr : string)      (* 'ty' object has no attribute 'attr' *)
| TypeError (msg : string)
| IndexError (msg : string)
| KeyError (key_repr : string)             (* the key as repr() shows it *)
| JSONDecodeError (msg : string)
| FileNotFoundError (msg : string)
| OtherException (cls msg : string).     (* any other subclass of Exception *)

(** [str(e)] *)
Definition exn_str (e : exn) : string :=
  match e with
  | ValueError m | PlainException m | TypeError m | IndexError m
  | JSONDecodeError m | FileNotFoundError m | OtherException _ m => m
  | AttributeError ty attr =>
      "'" ++ ty ++ "' object has no attribute '" ++ attr ++ "'"
  | KeyError k => k
  end.

(** Pure Python expressions: a value or a raised exception. *)
Inductive res (A : Type) : Type :=
| Ok (a : A)
| Err (e : exn).
Arguments Ok {A} a.
Arguments Err {A} e.

Definition rbind {A B} (r : res A) (f : A -> res B) : res B :=
  match r with
  | Ok a => f a
  | Err e => Err e
  end.

(** What the scripts do to the outside world. *)
Record Request : Type := mkRequest {
  req_method : string;
  req_url : string;                       (* base URL and endpoint *)
  req_query : option (list (string * string));
      (* the pairs urlencode(params, doseq=True) encodes after the "?",
         when the URL gets a query string *)
  req_headers : list (string * string);
  req_data : option json;                 (* the dict that json.dumps serialises *)
  req_timeout : Z
}.

Inductive event : Type :=
| EvHttp (r : Request)                    (* urllib.request.urlopen *)
| EvSubprocess (argv : list string)       (* subprocess.run *)
| EvCredRead (target : string)            (* advapi32.CredReadW *)
| EvStdout (line : string)                (* print(line) *)
| EvStderr (line : string).               (* print(line, file=sys.stderr) *)

Definition trace : Type := list event.

(** How a run of effectful code ends: a value, an exception on its way up,
    or [sys.exit(code)]. *)
Inductive outcome (A : Type) : Type :=
| Return (a : A)
| Raise (e : exn)
| Exit (code : Z).
Arguments Return {A} a.
Arguments Raise {A} e.
Arguments Exit {A} code.

(** Effectful code: the outcome and the events emitted on the way. *)
Definition M (A : Type) : Type := (outcome A * trace)%type.

Definition ret {A} (a : A) : M A := (Return a, []).
Definition raise {A} (e : exn) : M A := (Raise e, []).
Definition sys_exit {A} (code : Z) : M A := (Exit code, []).
Definition emit (e : event) : M unit := (Return tt, [e]).

Definition bind {A B} (m : M A) (f : A -> M B) : M B :=
  match fst m with
  | Return a => let r := f a in (fst r, (snd m ++ snd r)%list)
  | Raise e => (Raise e, snd m)
  | Exit c => (Exit c, snd m)
  end.

Definition lift {A} (r : res A) : M A :=
  match r with
  | Ok a => ret a
  | Err e => raise e
  end.

(** [try: body / except Exception as e: handler(e)].  [sys.exit] raises
    [SystemExit], which is not an [Exception] and passes through. *)
Definition try_except {A} (body : M A) (handler : exn -> M A) : M A :=
  match fst body with
  | Raise e => let r := handler e in (fst r, (snd body ++ snd r)%list)
  | _ => body
  end.

Definition print (line : string) : M unit := emit (EvStdout line).
Definition eprint (line : string) : M unit := emit (EvStderr line).

Declare Scope py_scope.
Delimit Scope py_scope with py.
Notation "x <- m ;; k" := (bind m (fun x => k))
  (at level 61, m at next level, right associativity) : py_scope.
Notation "m ;; k" := (bind m (fun _ => k))
  (at level 61, right associativity) : py_scope.
Notation "x <~ r ;; k" := (rbind r (fun x => k))
  (at level 61, r at next level, right associativity) : py_scope.

(** The HTTP requests among the events of a run. *)
Fixpoint http_requests (t : trace) : list Request :=
  match t with
  | [] => []
  | EvHttp r :: t' => r :: http_requests t'
  | _ :: t' => http_requests t'
  end.

(* ===================================================================== *)
(** * Operations on Python values *)
(* ===================================================================== *)

(** [v.get(k, default)]: only a [dict] has the method. *)
Definition py_get (v : json) (k : string) (default : json) : res json :=
  match v with
  | JObject d =>
      Ok (match dict_get d k with Some x => x | None => default end)
  | _ => Err (AttributeError (type_name v) "get")
  end.

(** [a or b]: [b] is evaluated only when [a] is falsy. *)
Definition py_or (a b : res json) : res json :=
  (x <~ a ;; if truthy x then Ok x else b)%py.

(** [v[0]] *)
Definition py_first (v : json) : res json :=
  match v with
  | JList (x :: _) => Ok x
  | JList [] => Err (IndexError "list index out of range")
  | JString (String c _) => Ok (JString (String c EmptyString))
  | JString EmptyString => Err (IndexError "string index out of range")
  | JObject _ => Err (KeyError "0")
  | _ => Err (TypeError ("'" ++ type_name v ++ "' object is not subscriptable"))
  end.

(** [v[k]] for a string key [k]. *)
Definition py_getitem (v : json) (k : string) : res json :=
  match v with
  | JObject d =>
      match dict_get d k with
      | Some x => Ok x
      | None => Err (KeyError ("'" ++ k ++ "'"))
      end
  | JList _ => Err (TypeError "list indices must be integers or slices, not str")
  | JString _ => Err (TypeError "string indices must be integers, not 'str'")
  | _ => Err (TypeError ("'" ++ type_name v ++ "' object is not subscriptable"))
  end.

(** [k in v] for a string [k]. *)
Definition py_contains (k : string) (v : json) : res bool :=
  match v with
  | JObject d => Ok (dict_mem d k)
  | JString s => Ok (PyStr.contains k s)
  | JList l => Ok (existsb (py_eqb (JString k)) l)
  | _ => Err (TypeError ("argument of type '" ++ type_name v ++ "' is not iterable"))
  end.

(** The elements a [for] loop sees. *)
Definition py_iter (v : json) : res (list json) :=
  match v with
  | JList l => Ok l
  | JString s =>
      Ok (map (fun c => JString (String c EmptyString)) (list_ascii_of_string s))
  | JObject d => Ok (map (fun kv => JString (fst kv)) d)
  | _ => Err (TypeError ("'" ++ type_name v ++ "' object is not iterable"))
  end.

(** [len(v)] *)
Definition py_len (v : json) : res nat :=
  match v with
  | JList l => Ok (length l)
  | JString s => Ok (String.length s)
  | JObject d => Ok (length d)
  | _ => Err (TypeError ("object of type '" ++ type_name v ++ "' has no len()"))
  end.

(** [v > 0] *)
Definition py_gt0 (v : json) : res bool :=
  match v with
  | JBool b => Ok b
  | JInt z => Ok (0 <? z)%Z
  | JFloat q => Ok (negb (Qle_bool q 0))
  | _ =>
      Err (TypeError ("'>' not supported between instances of '"
                      ++ type_name v ++ "' and 'int'"))
  end.

(** [v.strip()]: only a [str] has the method. *)
Definition py_strip (v : json) : res string :=
  match v with
  | JString s => Ok (PyStr.strip s)
  | _ => Err (AttributeError (type_name v) "strip")
  end.

(** [v.split("::")] *)
Definition py_split_colons (v : json) : res (list string) :=
  match v with
  | JString s => Ok (PyStr.split_colons s)
  | _ => Err (AttributeError (type_name v) "split")
  end.

(* ===================================================================== *)
(** * The host: everything the scripts reach outside their own code *)
(* ===================================================================== *)

(** What [subprocess.run(..., capture_output=True, text=True, timeout=5)]
    gives: a completed process, or an exception (the tool is not
    installed, the timeout expired, ...). *)
Inductive proc_result : Type :=
| Completed (returncode : Z) (stdout : string)
| ProcRaised (e : exn).

(** What reading the Windows Credential Manager through ctypes gives. *)
Inductive cred_result : Type :=
| CredBlob (secret : string)   (* CredReadW succeeded, the blob decoded *)
| CredNone                     (* CredReadW failed, or the blob is empty *)
| CredRaised (e : exn).        (* advapi32 missing, blob not UTF-16, ... *)

(** What [urlopen] gives, bodies already decoded as UTF-8 text. *)
Inductive http_result : Type :=
| HttpOk (body : string)
| HttpError (code : Z) (body : string)    (* urllib.error.HTTPError *)
| UrlError (reason : string).             (* urllib.error.URLError *)

(** What [json.loads] gives on a text. *)
Inductive loads_result : Type :=
| Decoded (v : json)
| DecodeFailed (msg : string).            (* json.JSONDecodeError *)

Record Host : Type := mkHost {
  getenv : string -> option string;             (* os.getenv(name) *)
  platform_system : string;                     (* platform.system() *)
  subprocess_run : list string -> proc_result;
  cred_read : string -> cred_result;
  setup_path : string;      (* os.path.join(<skill directory>, "setup.py") *)
  urlopen : Request -> http_result;
  json_loads : string -> loads_result;          (* json.loads(text) *)
  py_repr : json -> string;   (* str(v) of a float, a list or a dict *)
  py_fixed2 : Q -> string;    (* format(x, ".2f") of the number x *)
  url_refused : string -> option string;
    (* the message of the ValueError of urllib.request.Request(url, ...),
       when it refuses the URL (no scheme, ...) *)
  stdout_refuses : string -> option string
    (* the message of the UnicodeEncodeError of sys.stdout, when its
       encoding lacks a character of the text *)
}.

Section WithHost.
Variable h : Host.

(** [os.getenv(name, default)] *)
Definition getenv_or (name default : string) : string :=
  match getenv h name with
  | Some v => v
  | None => default
  end.

(** [str(v)], which is what an f-string field shows. *)
Definition py_str (v : json) : string :=
  match v with
  | JString s => s
  | JNull => "None"
  | JBool true => "True"
  | JBool false => "False"
  | JInt z => PyStr.of_Z z
  | _ => py_repr h v
  end.

(** [f"{v:.2f}"] *)
Definition py_format_2f (v : json) : res string :=
  match v with
  | JBool b => Ok (py_fixed2 h (inject_Z (if b then 1 else 0)))
  | JInt z => Ok (py_fixed2 h (inject_Z z))
  | JFloat q => Ok (py_fixed2 h q)
  | JString _ => Err (ValueError "Unknown format code 'f' for object of type 'str'")
  | _ =>
      Err (TypeError ("unsupported format string passed to "
                      ++ type_name v ++ ".__format__"))
  end.

End WithHost.

(* ===================================================================== *)
(** * scripts/lib/api_client.py *)
(* ===================================================================== *)

(** The attributes [__init__] sets on a client. *)
Record CodeAliveClient : Type := mkClient {
  api_key : string;
  base_url : string;
  timeout : Z
}.

(** A value of the [params] dictionary: a string, or a list of strings. *)
Inductive param : Type :=
| PStr (s : string)
| PSeq (l : list string).

(** The name/value pairs [urllib.parse.urlencode(params, doseq=True)]
    encodes: one pair for a string, one pair per element for a list. *)
Definition urlencode_doseq (params : dict param) : list (string * string) :=
  flat_map (fun kv =>
              match snd kv with
              | PStr v => [(fst kv, v)]
              | PSeq l => map (fun v => (fst kv, v)) l
              end) params.

(** Truthiness of an [Optional[str]]. *)
Definition opt_truthy (o : option string) : bool :=
  match o with
  | Some s => PyStr.nonempty s
  | None => false
  end.

Definition KEY_NOT_CONFIGURED (setup : string) : string :=
  "CodeAlive API key not configured." ++ PyStr.nl
  ++ PyStr.nl
  ++ "Run the interactive setup:" ++ PyStr.nl
  ++ "  python " ++ setup ++ PyStr.nl
  ++ PyStr.nl
  ++ "Or set the key manually:" ++ PyStr.nl
  ++ "  export CODEALIVE_API_KEY=" ++ PyStr.dquote ++ "your_key" ++ PyStr.dquote
  ++ PyStr.nl
  ++ PyStr.nl
  ++ "Get your API key at: https://app.codealive.ai/settings/api-keys".

Section Client.
Variable h : Host.
Local Open Scope py_scope.

(** [subprocess.run(argv, capture_output=True, text=True, timeout=5)] *)
Definition run_subprocess (argv : list string) : M (Z * string) :=
  emit (EvSubprocess argv) ;;
  match subprocess_run h argv with
  | Completed rc out => ret (rc, out)
  | ProcRaised e => raise e
  end.

(** [CodeAliveClient._read_windows_credential]: the ctypes calls are the
    host's; the method hands on what they give. *)
Definition _read_windows_credential (target_name : string) : M (option string) :=
  emit (EvCredRead target_name) ;;
  match cred_read h target_name with
  | CredBlob secret => ret (Some secret)
  | CredNone => ret None
  | CredRaised e => raise e
  end.

(** [CodeAliveClient._get_key_from_keychain] *)
Definition _get_key_from_keychain : M (option string) :=
  let system := platform_system h in
  try_except
    (if system =? "Darwin" then
       result <- run_subprocess
                   ["security"; "find-generic-password"; "-a";
                    getenv_or h "USER" ""; "-s"; "codealive-api-key"; "-w"] ;;
       if (fst result =? 0)%Z && PyStr.nonempty (PyStr.strip (snd result))
       then ret (Some (PyStr.strip (snd result)))
       else ret None
     else if system =? "Linux" then
       result <- run_subprocess
                   ["secret-tool"; "lookup"; "service"; "codealive-api-key"] ;;
       if (fst result =? 0)%Z && PyStr.nonempty (PyStr.strip (snd result))
       then ret (Some (PyStr.strip (snd result)))
       else ret None
     else if system =? "Windows" then
       _read_windows_credential "codealive-api-key"
     else ret None)
    (fun _ => ret None).

(** The expression
    [api_key or os.getenv("CODEALIVE_API_KEY") or self._get_key_from_keychain()]
    of [__init__]. *)
Definition resolve_api_key (api_key : option string) : M (option string) :=
  if opt_truthy api_key then ret api_key
  else
    let env := getenv h "CODEALIVE_API_KEY" in
    if opt_truthy env then ret env
    else _get_key_from_keychain.

(** [CodeAliveClient.__init__] *)
Definition __init__ (api_key base_url : option string) : M CodeAliveClient :=
  key <- resolve_api_key api_key ;;
  match key with
  | Some (String _ _ as k) =>
      ret {| api_key := k;
             base_url :=
               match base_url with
               | Some (String _ _ as b) => b
               | _ => getenv_or h "CODEALIVE_BASE_URL" "https://app.codealive.ai"
               end;
             timeout := 60 |}
  | _ => raise (ValueError (KEY_NOT_CONFIGURED (setup_path h)))
  end.

(** The request [_make_request] builds. *)
Definition build_request (self : CodeAliveClient) (method endpoint : string)
    (params : option (dict param)) (body : option json) : Request :=
  {| req_method := method;
     req_url := base_url self ++ endpoint;
     req_query :=
       match params with
       | Some ((_ :: _) as p) => Some (urlencode_doseq p)
       | _ => None
       end;
     req_headers :=
       [("Authorization", "Bearer " ++ api_key self);
        ("Content-Type", "application/json")];
     req_data :=
       match body with
       | Some b => if truthy b then Some b else None
       | None => None
       end;
     req_timeout := timeout self |}.

(** The [error_msg] that [_make_request] extracts from an error body. *)
Definition error_message (error_body : string) : res json :=
  match json_loads h error_body with
  | Decoded error_data =>
      py_or (py_get error_data "message" JNull)
        (py_or (py_get error_data "error" JNull)
           (Ok (JString error_body)))
  | DecodeFailed _ => Ok (JString error_body)
  end.

(** The [except urllib.error.HTTPError] branch of [_make_request]. *)
Definition http_error (self : CodeAliveClient) (code : Z) (error_body : string)
  : res json :=
  (error_msg <~ error_message error_body ;;
   if (code =? 401)%Z then
     stripped <~ py_strip error_msg ;;
     let detail :=
       if PyStr.nonempty stripped then ": " ++ py_str h error_msg else "" in
     Err (PlainException
            ("Authentication failed (401)" ++ detail ++ ". "
             ++ "Your API key may be invalid or expired. "
             ++ "Get a new key at: " ++ base_url self ++ "/settings/api-keys"))
   else if (code =? 403)%Z then
     Err (PlainException
            ("Access denied (403): " ++ py_str h error_msg ++ ". "
             ++ "Your API key may lack permissions for this operation."))
   else if (code =? 404)%Z then
     Err (PlainException ("Not found (404): " ++ py_str h error_msg))
   else if (code =? 429)%Z then
     Err (PlainException "Rate limit exceeded (429). Please wait before retrying.")
   else if (500 <=? code)%Z then
     Err (PlainException
            ("Server error (" ++ PyStr.of_Z code ++ "): " ++ py_str h error_msg
             ++ ". " ++ "The CodeAlive service may be temporarily unavailable."))
   else
     Err (PlainException
            ("API request failed (" ++ PyStr.of_Z code ++ "): "
             ++ py_str h error_msg)))%py.

(** [CodeAliveClient._make_request] *)
Definition _make_request (self : CodeAliveClient) (method endpoint : string)
    (params : option (dict param)) (body : option json) : M json :=
  let request := build_request self method endpoint params body in
  emit (EvHttp request) ;;
  match urlopen h request with
  | HttpOk response_data =>
      if PyStr.nonempty response_data then
        match json_loads h response_data with
        | Decoded v => ret v
        | DecodeFailed msg => raise (JSONDecodeError msg)
        end
      else ret (JObject [])
  | HttpError code error_body => lift (http_error self code error_body)
  | UrlError reason =>
      raise (PlainException
               ("Cannot connect to " ++ base_url self ++ ": " ++ reason ++ ". "
                ++ "Check your network connection and CODEALIVE_BASE_URL setting."))
  end.

(** [CodeAliveClient.get_datasources] *)
Definition get_datasources (self : CodeAliveClient) (alive_only : bool) : M json :=
  let endpoint :=
    if alive_only then "/api/datasources/alive" else "/api/datasources/all" in
  _make_request self "GET" endpoint None None.

(** [CodeAliveClient.search] *)
Definition search (self : CodeAliveClient) (query : string)
    (data_sources : list string) (mode : string) (include_content : bool)
  : M json :=
  let params :=
    [("Query", PStr query);
     ("Mode", PStr mode);
     ("IncludeContent", PStr (PyStr.lower (py_str h (JBool include_content))));
     ("Names", PSeq data_sources)] in
  _make_request self "GET" "/api/search" (Some params) None.

(** The [body] that [chat] builds before it sends anything: the initial
    dictionary, the branch on [conversation_id] and [data_sources], and
    the final [body["stream"] = False]. *)
Definition chat_request_body (question : string)
    (data_sources : option (list string)) (conversation_id : option string)
  : res (dict json) :=
  (let body :=
     [("messages",
       JList [JObject [("role", JString "user"); ("content", JString question)]]);
      ("stream", JBool true)] in
   body <~
     match conversation_id, data_sources with
     | Some (String _ _ as c), _ =>
         Ok (dict_set body "conversationId" (JString c))
     | _, Some ((_ :: _) as l) =>
         Ok (dict_set body "names" (JList (map JString l)))
     | _, _ =>
         Err (ValueError "Either conversation_id or data_sources must be provided")
     end ;;
   Ok (dict_set body "stream" (JBool false)))%py.

(** The [answer] expression of [chat]:
    [response.get("choices", [{}])[0].get("message", {}).get("content", "")] *)
Definition chat_answer (response : json) : res json :=
  (choices <~ py_get response "choices" (JList [JObject []]) ;;
   choice <~ py_first choices ;;
   message <~ py_get choice "message" (JObject []) ;;
   py_get message "content" (JString ""))%py.

(** The dictionary [chat] returns for a [response]. *)
Definition chat_result (response : json) : res json :=
  (answer <~ chat_answer response ;;
   conversation_id <~ py_get response "id" JNull ;;
   Ok (JObject [("answer", answer);
                ("conversation_id", conversation_id);
                ("full_response", response)]))%py.

(** [CodeAliveClient.chat] *)
Definition chat (self : CodeAliveClient) (question : string)
    (data_sources : option (list string)) (conversation_id : option string)
  : M json :=
  body <- lift (chat_request_body question data_sources conversation_id) ;;
  response <- _make_request self "POST" "/api/chat/completions" None
                (Some (JObject body)) ;;
  lift (chat_result response).

End Client.

(* ===================================================================== *)
(** * scripts/search.py *)
(* ===================================================================== *)

Section Search.
Variable h : Host.
Local Open Scope py_scope.

(** The body of the [for idx, result in enumerate(items, 1)] loop of
    [format_search_results]: the lines it appends to [output]. *)
Definition render_item (idx : nat) (result : json) : res (list string) :=
  location <~ py_get result "location" (JObject []) ;;
  file_path <~ py_or (py_get location "path" JNull)
                 (py_or (py_get result "filePath" JNull)
                    (py_or (py_get result "file" JNull)
                       (py_get result "path" JNull))) ;;
  range_info <~ py_get location "range" (JObject []) ;;
  start_line <~ py_or (start <~ py_get range_info "start" (JObject []) ;;
                       py_get start "line" JNull)
                  (py_or (py_get result "startLine" JNull)
                     (py_get result "lineNumber" JNull)) ;;
  end_line <~ py_or (end_ <~ py_get range_info "end" (JObject []) ;;
                     py_get end_ "line" JNull)
                (py_get result "endLine" JNull) ;;
  ds <~ py_get result "dataSource" (JObject []) ;;
  source_name <~ match ds with
                 | JObject _ => py_get ds "name" JNull
                 | _ => Ok ds
                 end ;;
  kind <~ py_get result "kind" (JString "") ;;
  identifier <~ py_get result "identifier" (JString "") ;;
  file_path <~ (if negb (truthy file_path) then
                  has_sep <~ py_contains "::" identifier ;;
                  if has_sep : bool then
                    parts <~ py_split_colons identifier ;;
                    match parts with
                    | _ :: part1 :: _ => Ok (JString part1)
                    | _ => Ok file_path
                    end
                  else Ok file_path
                else Ok file_path) ;;
  score <~ py_or (py_get result "score" JNull) (py_get result "relevance" JNull) ;;
  snippet <~ py_or (py_get result "snippet" JNull)
               (py_or (py_get result "content" JNull)
                  (py_or (py_get result "code" JNull) (Ok (JString "")))) ;;
  let loc_str := if truthy file_path then file_path else JString "" in
  loc_str <~ (if truthy loc_str && truthy start_line then
                positive <~ py_gt0 start_line ;;
                if positive : bool then
                  if truthy end_line && negb (py_eqb end_line start_line) then
                    end_positive <~ py_gt0 end_line ;;
                    if end_positive : bool then
                      Ok (JString (py_str h file_path ++ ":" ++ py_str h start_line
                                   ++ "-" ++ py_str h end_line))
                    else
                      Ok (JString (py_str h file_path ++ ":" ++ py_str h start_line))
                  else
                    Ok (JString (py_str h file_path ++ ":" ++ py_str h start_line))
                else Ok loc_str
              else Ok loc_str) ;;
  let header :=
    [PyStr.nl ++ "--- Result #" ++ PyStr.of_nat idx ++ " [" ++ py_str h kind ++ "] ---"] in
  let file_line :=
    if truthy loc_str then ["  File: " ++ py_str h loc_str] else [] in
  symbol_line <~ (if truthy identifier && negb (py_eqb kind (JString "Chunk")) then
                    has_sep <~ py_contains "::" identifier ;;
                    short_id <~ (if has_sep : bool then
                                   parts <~ py_split_colons identifier ;;
                                   Ok (JString (last parts ""))
                                 else Ok identifier) ;;
                    if negb (py_eqb short_id file_path)
                    then Ok ["  Symbol: " ++ py_str h short_id]
                    else Ok []
                  else Ok []) ;;
  let source_line :=
    if truthy source_name then ["  Source: " ++ py_str h source_name] else [] in
  score_line <~ match score with
                | JNull => Ok []
                | _ => shown <~ py_format_2f h score ;; Ok ["  Relevance: " ++ shown]
                end ;;
  stripped <~ py_strip snippet ;;
  let snippet_line :=
    if PyStr.nonempty stripped
    then [PyStr.nl ++ "```" ++ PyStr.nl ++ stripped ++ PyStr.nl ++ "```"]
    else [] in
  Ok (header ++ file_line ++ symbol_line ++ source_line ++ score_line
      ++ snippet_line)%list.

(** The whole loop, [idx] counting up from its start value. *)
Fixpoint render_items (idx : nat) (items : list json) : res (list string) :=
  match items with
  | [] => Ok []
  | result :: rest =>
      block <~ render_item idx result ;;
      blocks <~ render_items (S idx) rest ;;
      Ok (block ++ blocks)%list
  end.

(** The [items] that [format_search_results] picks out of the response. *)
Definition result_items (results : json) : res json :=
  match results with
  | JList _ => Ok results
  | _ =>
      enveloped <~ py_contains "results" results ;;
      if enveloped : bool then py_getitem results "results"
      else Ok (JList [results])
  end.

(** [format_search_results] *)
Definition format_search_results (results : json) (include_content : bool)
  : res string :=
  if negb (truthy results) then Ok "No results found."
  else
    items <~ result_items results ;;
    if negb (truthy items) then Ok "No results found."
    else
      elements <~ py_iter items ;;
      output <~ render_items 1 elements ;;
      count <~ py_len items ;;
      let footer := PyStr.nl ++ "(" ++ PyStr.of_nat count ++ " results)" in
      Ok (PyStr.join PyStr.nl (output ++ [footer])%list).

(** The module docstring, which [--help] prints. *)
Variable __doc__ : string.

(** The [while i < len(sys.argv)] loop of [main], on the arguments from
    index [i] on. *)
Fixpoint parse_args (args : list string) (mode : string)
    (include_content : bool) (data_sources : list string)
  : M (string * bool * list string) :=
  match args with
  | [] => ret (mode, include_content, data_sources)
  | arg :: rest =>
      match arg =? "--mode", rest with
      | true, value :: rest' => parse_args rest' value include_content data_sources
      | _, _ =>
          if arg =? "--include-content" then
            parse_args rest mode true data_sources
          else if arg =? "--help" then
            print __doc__ ;; sys_exit 0
          else
            parse_args rest mode include_content (data_sources ++ [arg])%list
      end
  end.

(** [main], given [sys.argv]. *)
Definition main (argv : list string) : M unit :=
  if (length argv <? 3)%nat then
    eprint "Error: Missing required arguments." ;;
    eprint "Usage: python search.py <query> <data_source> [data_source2...] [--mode auto|fast|deep] [--include-content]" ;;
    sys_exit 1
  else
    let query := nth 1 argv "" in
    parsed <- parse_args (skipn 2 argv) "auto" false [] ;;
    let '(mode, include_content, data_sources) := parsed in
    match data_sources with
    | [] =>
        eprint "Error: At least one data source is required. Run datasources.py to see available sources." ;;
        sys_exit 1
    | _ :: _ =>
        try_except
          (client <- __init__ h None None ;;
           eprint ("🔍 Searching for: '" ++ query ++ "'") ;;
           eprint ("📚 Data sources: " ++ PyStr.join ", " data_sources) ;;
           eprint ("⚙️  Mode: " ++ mode) ;;
           (if include_content then eprint "📄 Include content: yes" else ret tt) ;;
           eprint "" ;;
           results <- search h client query data_sources mode include_content ;;
           shown <- lift (format_search_results results include_content) ;;
           print shown)
          (fun e => eprint ("❌ Error: " ++ exn_str e) ;; sys_exit 1)
    end.

End Search.

(* ===================================================================== *)
(** * scripts/explore.py *)
(* ===================================================================== *)

(** [items[:5]] *)
Definition py_first5 (v : json) : res json :=
  match v with
  | JList l => Ok (JList (firstn 5 l))
  | JString s => Ok (JString (substring 0 5 s))
  | JObject _ => Err (TypeError "unhashable type: 'slice'")
  | _ => Err (TypeError ("'" ++ type_name v ++ "' object is not subscriptable"))
  end.

Section Explore.
Variable h : Host.
Local Open Scope py_scope.

Definition RULE : string := PyStr.repeat "=" 80.

(** The lines every workflow starts with. *)
Definition banner (mode_line subject_line : string) (data_sources : list string)
  : M unit :=
  print mode_line ;;
  print subject_line ;;
  print ("📚 Data sources: " ++ PyStr.join ", " data_sources) ;;
  print "".

(** The lines every workflow ends with. *)
Definition report (title : string) (chat_result : json) : M unit :=
  print RULE ;;
  print title ;;
  print RULE ;;
  answer <- lift (py_getitem chat_result "answer") ;;
  print (py_str h answer) ;;
  print RULE.

(** The loop of [explore_understand] over the first locations. *)
Fixpoint show_locations (idx : nat) (items : list json) : M unit :=
  match items with
  | [] => ret tt
  | result :: rest =>
      location <- lift (py_get result "location" (JObject [])) ;;
      file_path <- lift (py_or (py_get location "path" JNull)
                           (py_or (py_get result "filePath" JNull)
                              (py_or (py_get result "file" JNull)
                                 (Ok (JString "Unknown"))))) ;;
      range_info <- lift (py_get location "range" (JObject [])) ;;
      line <- lift (py_or (start <~ py_get range_info "start" (JObject []) ;;
                           py_get start "line" JNull)
                      (py_or (py_get result "startLine" JNull)
                         (Ok (JString "?")))) ;;
      print ("   " ++ PyStr.of_nat idx ++ ". " ++ py_str h file_path ++ ":"
             ++ py_str h line) ;;
      show_locations (S idx) rest
  end.

(** [explore_understand] *)
Definition explore_understand (client : CodeAliveClient) (query : string)
    (data_sources : list string) : M unit :=
  banner "🎯 Mode: UNDERSTAND" ("📝 Topic: " ++ query) data_sources ;;
  print "🔍 Step 1: Searching for relevant code..." ;;
  print "" ;;
  search_results <- search h client query data_sources "auto" false ;;
  print "📍 Found relevant locations:" ;;
  items <- lift match search_results with
                | JList _ => Ok search_results
                | JObject _ => py_get search_results "results" (JList [])
                | _ => Ok (JList [])
                end ;;
  shown <- lift (top <~ py_first5 items ;; py_iter top) ;;
  show_locations 1 shown ;;
  print "" ;;
  print "💬 Step 2: Getting expert explanation..." ;;
  print "" ;;
  let consultant_query :=
    "Based on the search results for '" ++ query
    ++ "', explain how this works in the codebase. Focus on architecture, key components, and data flow." in
  chat_result <- chat h client consultant_query (Some data_sources) None ;;
  report "📖 EXPLANATION:" chat_result.

(** [explore_dependency] *)
Definition explore_dependency (client : CodeAliveClient) (query : string)
    (data_sources : list string) : M unit :=
  banner "🎯 Mode: DEPENDENCY DEEP-DIVE" ("📦 Library: " ++ query) data_sources ;;
  print "🔍 Step 1: Finding usage patterns..." ;;
  print "" ;;
  let usage_query :=
    "How is " ++ query ++ " used? Show me import statements and usage examples" in
  search_results <- search h client usage_query data_sources "auto" true ;;
  print "💬 Step 2: Understanding internals and best practices..." ;;
  print "" ;;
  let consultant_query :=
    "About the library/dependency '" ++ query ++ "':" ++ PyStr.nl
    ++ "1. How does it work internally?" ++ PyStr.nl
    ++ "2. What are the common usage patterns in this codebase?" ++ PyStr.nl
    ++ "3. What are best practices and potential gotchas?" ++ PyStr.nl
    ++ "4. How do other projects in the ecosystem use it?" in
  chat_result <- chat h client consultant_query (Some data_sources) None ;;
  report "📖 DEPENDENCY ANALYSIS:" chat_result.

(** [explore_pattern] *)
Definition explore_pattern (client : CodeAliveClient) (query : string)
    (data_sources : list string) : M unit :=
  banner "🎯 Mode: PATTERN DISCOVERY" ("🔍 Pattern: " ++ query) data_sources ;;
  print "🔍 Searching across projects (deep mode)..." ;;
  print "" ;;
  search_results <- search h client
                      ("Show me different implementations of " ++ query)
                      data_sources "deep" true ;;
  print "💬 Analyzing patterns..." ;;
  print "" ;;
  let consultant_query :=
    "Analyze the different implementations of '" ++ query
    ++ "' found in the codebase:" ++ PyStr.nl
    ++ "1. What are the common patterns?" ++ PyStr.nl
    ++ "2. What are the variations?" ++ PyStr.nl
    ++ "3. Which approach is recommended and why?" ++ PyStr.nl
    ++ "4. Are there any anti-patterns to avoid?" in
  chat_result <- chat h client consultant_query (Some data_sources) None ;;
  report "📊 PATTERN ANALYSIS:" chat_result.

(** [explore_implement] *)
Definition explore_implement (client : CodeAliveClient) (query : string)
    (data_sources : list string) : M unit :=
  banner "🎯 Mode: IMPLEMENTATION GUIDE" ("✨ Feature to implement: " ++ query)
    data_sources ;;
  print "🔍 Step 1: Finding similar implementations..." ;;
  print "" ;;
  search_results <- search h client
                      ("Similar features to " ++ query ++ ", existing implementations")
                      data_sources "auto" false ;;
  print "💬 Step 2: Getting implementation guidance..." ;;
  print "" ;;
  let consultant_query :=
    "I need to implement '" ++ query ++ "'. Based on the codebase:" ++ PyStr.nl
    ++ "1. What similar features exist that I can learn from?" ++ PyStr.nl
    ++ "2. What are the architectural patterns I should follow?" ++ PyStr.nl
    ++ "3. What components/services do I need to integrate with?" ++ PyStr.nl
    ++ "4. What are the key considerations (security, performance, testing)?"
    ++ PyStr.nl
    ++ "5. What's the recommended approach to implement this?" in
  chat_result <- chat h client consultant_query (Some data_sources) None ;;
  report "🛠️  IMPLEMENTATION GUIDE:" chat_result.

(** [explore_debug] *)
Definition explore_debug (client : CodeAliveClient) (query : string)
    (data_sources : list string) : M unit :=
  banner "🎯 Mode: DEBUG INVESTIGATION" ("🐛 Issue: " ++ query) data_sources ;;
  print "🔍 Step 1: Finding related code..." ;;
  print "" ;;
  search_results <- search h client ("Code related to " ++ query)
                      data_sources "auto" true ;;
  print "💬 Step 2: Analyzing root cause..." ;;
  print "" ;;
  let consultant_query :=
    "Help me debug: '" ++ query ++ "'" ++ PyStr.nl
    ++ "1. What code is likely involved?" ++ PyStr.nl
    ++ "2. What could be causing this issue?" ++ PyStr.nl
    ++ "3. What should I check first?" ++ PyStr.nl
    ++ "4. What are common mistakes related to this?" ++ PyStr.nl
    ++ "5. How can I trace and fix this issue?" in
  chat_result <- chat h client consultant_query (Some data_sources) None ;;
  report "🔧 DEBUG ANALYSIS:" chat_result.

(** The five workflows, by the mode name [parse_query] returns. *)
Inductive workflow : Type :=
| Understand | Dependency | Pattern | Implement | Debug.

Definition explore (mode : workflow) : CodeAliveClient -> string -> list string -> M unit :=
  match mode with
  | Understand => explore_understand
  | Dependency => explore_dependency
  | Pattern => explore_pattern
  | Implement => explore_implement
  | Debug => explore_debug
  end.

End Explore.

(* ===================================================================== *)
(** * scripts/lib/api_client.py: the command line of the module *)
(* ===================================================================== *)

Module api_client_py.
Section Cli.
Variable h : Host.
Variable json_dumps : json -> string.      (* json.dumps(value, indent=2) *)
Local Open Scope py_scope.

(** The [while] loop of the [search] command, on the arguments from
    index [i] on. *)
Fixpoint search_args (args : list string) (mode : string)
    (include_content : bool) (data_sources : list string)
  : string * bool * list string :=
  match args with
  | [] => (mode, include_content, data_sources)
  | arg :: rest =>
      match arg =? "--mode", rest with
      | true, value :: rest' => search_args rest' value include_content data_sources
      | _, _ =>
          if arg =? "--include-content" then
            search_args rest mode true data_sources
          else
            search_args rest mode include_content (data_sources ++ [arg])%list
      end
  end.

(** The [while] loop of the [chat] command. *)
Fixpoint chat_args (args : list string) (conversation_id : option string)
    (data_sources : list string) : option string * list string :=
  match args with
  | [] => (conversation_id, data_sources)
  | arg :: rest =>
      match arg =? "--conversation-id", rest with
      | true, value :: rest' => chat_args rest' (Some value) data_sources
      | _, _ => chat_args rest conversation_id (data_sources ++ [arg])%list
      end
  end.

(** The body of the [try] of [main]. *)
Definition run_command (client : CodeAliveClient) (argv : list string) : M unit :=
  let command := nth 1 argv "" in
  if command =? "datasources" then
    let alive_only := negb (existsb (String.eqb "--all") argv) in
    result <- get_datasources h client alive_only ;;
    print (json_dumps result)
  else if command =? "search" then
    if (length argv <? 4)%nat then
      print "Usage: search <query> <data_source1> [data_source2...] [--mode MODE] [--include-content]" ;;
      sys_exit 1
    else
      let query := nth 2 argv "" in
      let '(mode, include_content, data_sources) :=
        search_args (skipn 3 argv) "auto" false [] in
      result <- search h client query data_sources mode include_content ;;
      print (json_dumps result)
  else if command =? "chat" then
    if (length argv <? 4)%nat then
      print "Usage: chat <question> <data_source1> [data_source2...] [--conversation-id ID]" ;;
      sys_exit 1
    else
      let question := nth 2 argv "" in
      let '(conversation_id, data_sources) := chat_args (skipn 3 argv) None [] in
      result <- chat h client question
                  (match data_sources with [] => None | _ :: _ => Some data_sources end)
                  conversation_id ;;
      answer <- lift (py_getitem result "answer") ;;
      print (py_str h answer) ;;
      shown_id <- lift (py_get result "conversation_id" JNull) ;;
      if truthy shown_id then
        print (PyStr.nl ++ "Conversation ID: " ++ py_str h shown_id)
      else ret tt
  else
    print ("Unknown command: " ++ command) ;;
    sys_exit 1.

(** [main], given [sys.argv]. *)
Definition main (argv : list string) : M unit :=
  if (length argv <? 2)%nat then
    print "Usage: python api_client.py <command> [args...]" ;;
    print "Commands:" ;;
    print "  datasources [--all]" ;;
    print "  search <query> <data_source1> [data_source2...] [--mode auto|fast|deep] [--include-content]" ;;
    print "  chat <question> <data_source1> [data_source2...] [--conversation-id ID]" ;;
    sys_exit 1
  else
    client <- __init__ h None None ;;
    try_except (run_command client argv)
      (fun e => eprint ("Error: " ++ exn_str e) ;; sys_exit 1).

End Cli.
End api_client_py.

(* ===================================================================== *)
(** * scripts/explore.py: [parse_query] and [main] *)
(* ===================================================================== *)

(** [s[n:]] *)
Fixpoint str_drop (n : nat) (s : string) : string :=
  match n, s with
  | S k, String _ r => str_drop k r
  | _, _ => s
  end.

Module explore_py.

Definition MODES : list string :=
  ["understand"; "dependency"; "pattern"; "implement"; "debug"].

(** The [for mode in modes] loop of [parse_query].  [PyStr.lower] changes
    ASCII letters only; the two characters outside ASCII whose lower case
    starts with an ASCII letter (U+0130: [i] and U+0307, U+212A: [k])
    cannot complete one of the five prefixes, so the test is that of
    [query.lower().startswith(prefix)], and a query that passes it starts
    with as many ASCII characters as the prefix has. *)
Fixpoint parse_query_from (modes : list string) (query : string) : string * string :=
  match modes with
  | [] => ("understand", query)
  | mode :: rest =>
      let prefix_ := mode ++ ":" in
      if prefix prefix_ (PyStr.lower query)
      then (mode, PyStr.strip (str_drop (String.length prefix_) query))
      else parse_query_from rest query
  end.

(** [parse_query] *)
Definition parse_query (query : string) : string * string :=
  parse_query_from MODES query.

Section Cli.
Variable h : Host.
Variable __doc__ : string.
Local Open Scope py_scope.

(** The [while] loop of [main], on the arguments from index [i] on. *)
Fixpoint data_source_args (args : list string) (data_sources : list string)
  : list string :=
  match args with
  | [] => data_sources
  | arg :: rest =>
      match arg =? "--workspace", rest with
      | true, name :: rest' =>
          let source := "workspace:" ++ name in
          data_source_args rest' (data_sources ++ [source])%list
      | _, _ => data_source_args rest (data_sources ++ [arg])%list
      end
  end.

(** The body of the [try] of [main]. *)
Definition session (query : string) (data_sources : list string) : M unit :=
  client <- __init__ h None None ;;
  let '(mode, actual_query) := parse_query query in
  print (PyStr.nl ++ PyStr.repeat "=" 80) ;;
  print "🚀 CodeAlive Explorer" ;;
  print (PyStr.repeat "=" 80 ++ PyStr.nl) ;;
  if mode =? "understand" then explore_understand h client actual_query data_sources
  else if mode =? "dependency" then explore_dependency h client actual_query data_sources
  else if mode =? "pattern" then explore_pattern h client actual_query data_sources
  else if mode =? "implement" then explore_implement h client actual_query data_sources
  else if mode =? "debug" then explore_debug h client actual_query data_sources
  else ret tt.

(** [main], given [sys.argv]. *)
Definition main (argv : list string) : M unit :=
  if (length argv <? 3)%nat then
    eprint "Error: Missing required arguments." ;;
    eprint "Usage: python explore.py <mode:query> <data_source> [data_source2...]" ;;
    eprint "Modes: understand, dependency, pattern, implement, debug" ;;
    sys_exit 1
  else if nth 1 argv "" =? "--help" then
    (* the docstring holds U+2192, and this [print] is outside the [try] *)
    match stdout_refuses h __doc__ with
    | Some msg => raise (OtherException "UnicodeEncodeError" msg)
    | None => print __doc__
    end ;;
    sys_exit 0
  else
    let query := nth 1 argv "" in
    let data_sources := data_source_args (skipn 2 argv) [] in
    match data_sources with
    | [] =>
        eprint "Error: At least one data source is required. Run datasources.py to see available sources." ;;
        sys_exit 1
    | _ :: _ =>
        try_except (session query data_sources)
          (fun e => eprint (PyStr.nl ++ "❌ Error: " ++ exn_str e) ;; sys_exit 1)
    end.

End Cli.
End explore_py.

(* ===================================================================== *)
(** * scripts/chat.py *)
(* ===================================================================== *)

Module chat_py.
Section Cli.
Variable h : Host.
Variable __doc__ : string.
Local Open Scope py_scope.

(** The [while] loop of [main], on the arguments from index [i] on. *)
Fixpoint parse_args (args : list string) (conversation_id : option string)
    (data_sources : list string) : option string * list string :=
  match args with
  | [] => (conversation_id, data_sources)
  | arg :: rest =>
      match (arg =? "--continue") || (arg =? "--conversation-id"), rest with
      | true, value :: rest' => parse_args rest' (Some value) data_sources
      | _, _ => parse_args rest conversation_id (data_sources ++ [arg])%list
      end
  end.

(** The body of the [try] of [main]. *)
Definition session (question : string) (conversation_id : option string)
    (data_sources : list string) : M unit :=
  client <- __init__ h None None ;;
  eprint ("💬 Question: " ++ question) ;;
  match conversation_id with
  | Some (String _ _ as c) => eprint ("🔄 Continuing conversation: " ++ c)
  | _ => eprint ("📚 Analyzing: " ++ PyStr.join ", " data_sources)
  end ;;
  eprint "" ;;
  eprint "🤔 Thinking..." ;;
  eprint "" ;;
  result <- chat h client question
              (match data_sources with [] => None | _ :: _ => Some data_sources end)
              conversation_id ;;
  print (PyStr.repeat "=" 80) ;;
  answer <- lift (py_getitem result "answer") ;;
  print (py_str h answer) ;;
  print (PyStr.repeat "=" 80) ;;
  shown_id <- lift (py_get result "conversation_id" JNull) ;;
  if truthy shown_id then
    print "" ;;
    print ("💾 Conversation ID: " ++ py_str h shown_id) ;;
    print ("   Use --continue " ++ py_str h shown_id ++ " to ask follow-up questions")
  else ret tt.

(** [main], given [sys.argv]. *)
Definition main (argv : list string) : M unit :=
  if (length argv <? 2)%nat then
    eprint "Error: Missing required arguments." ;;
    eprint "Usage: python chat.py <question> <data_source> [data_source2...] [--continue <conversation_id>]" ;;
    sys_exit 1
  else if nth 1 argv "" =? "--help" then
    print __doc__ ;;
    sys_exit 0
  else
    let question := nth 1 argv "" in
    let '(conversation_id, data_sources) := parse_args (skipn 2 argv) None [] in
    if negb (opt_truthy conversation_id)
       && match data_sources with [] => true | _ :: _ => false end
    then
      eprint "Error: Either data sources or --continue <conversation_id> is required." ;;
      eprint "Run datasources.py to see available sources." ;;
      sys_exit 1
    else
      try_except (session question conversation_id data_sources)
        (fun e => eprint ("❌ Error: " ++ exn_str e) ;; sys_exit 1).

End Cli.
End chat_py.

(* ===================================================================== *)
(** * scripts/datasources.py *)
(* ===================================================================== *)

Module datasources_py.
Section Cli.
Variable h : Host.
Variable json_dumps : json -> string.      (* json.dumps(value, indent=2) *)
Variable __doc__ : string.
Local Open Scope py_scope.

(** [[ds for ds in datasources if ds.get("type") == kind]] *)
Fixpoint of_type (kind : string) (datasources : list json) : res (list json) :=
  match datasources with
  | [] => Ok []
  | ds :: rest =>
      ty <~ py_get ds "type" JNull ;;
      kept <~ of_type kind rest ;;
      Ok (if py_eqb ty (JString kind) then ds :: kept else kept)
  end.

(** [f" [{state}]" if state and state != "Alive" else ""] *)
Definition status_of (state : json) : string :=
  if truthy state && negb (py_eqb state (JString "Alive"))
  then " [" ++ py_str h state ++ "]"
  else "".

(** The lines of one workspace. *)
Definition workspace_lines (ws : json) : res (list string) :=
  name <~ py_get ws "name" (JString "Unknown") ;;
  desc <~ py_get ws "description" (JString "No description") ;;
  state <~ py_get ws "state" (JString "") ;;
  Ok [PyStr.nl ++ "  📁 " ++ py_str h name ++ status_of state;
      "     " ++ py_str h desc].

(** The lines of one repository. *)
Definition repository_lines (repo : json) : res (list string) :=
  name <~ py_get repo "name" (JString "Unknown") ;;
  desc <~ py_get repo "description" (JString "No description") ;;
  url <~ py_get repo "url" (JString "") ;;
  state <~ py_get repo "state" (JString "") ;;
  let title := PyStr.nl ++ "  📄 " ++ py_str h name ++ status_of state in
  let detail := "     " ++ py_str h desc in
  let link := "     🔗 " ++ py_str h url in
  Ok ([title; detail] ++ (if truthy url then [link] else []))%list.

(** A [for] loop that appends the lines of each element. *)
Fixpoint lines_of (render : json -> res (list string)) (items : list json)
  : res (list string) :=
  match items with
  | [] => Ok []
  | item :: rest =>
      block <~ render item ;;
      blocks <~ lines_of render rest ;;
      Ok (block ++ blocks)%list
  end.

Definition USAGE_LINES : list string :=
  [PyStr.nl ++ PyStr.repeat "=" 80;
   PyStr.nl ++ "💡 Usage:";
   "   • Use names with search.py and chat.py";
   "   • Workspaces search ALL repos in the workspace";
   "   • Combine multiple data sources for broader search";
   PyStr.nl ++ "📖 Examples:";
   "   python search.py 'auth logic' my-backend";
   "   python chat.py 'How does caching work?' workspace:platform-team"].

(** [format_datasources] *)
Definition format_datasources (datasources : json) (as_json : bool) : res string :=
  if as_json then Ok (json_dumps datasources)
  else if negb (truthy datasources) then
    Ok ("No data sources found." ++ PyStr.nl
        ++ "Add repositories at https://app.codealive.ai")
  else
    total <~ py_len datasources ;;
    let heading :=
      [PyStr.nl ++ "📚 Available Data Sources (" ++ PyStr.of_nat total ++ " total)"
       ++ PyStr.nl;
       PyStr.repeat "=" 80] in
    elements <~ py_iter datasources ;;
    repos <~ of_type "Repository" elements ;;
    workspaces <~ of_type "Workspace" elements ;;
    workspace_part <~
      match workspaces with
      | [] => Ok []
      | _ :: _ =>
          blocks <~ lines_of workspace_lines workspaces ;;
          let title := PyStr.nl ++ "🗂️  WORKSPACES (search across multiple repos)" in
          Ok ([title; PyStr.repeat "-" 80] ++ blocks)%list
      end ;;
    repository_part <~
      match repos with
      | [] => Ok []
      | _ :: _ =>
          blocks <~ lines_of repository_lines repos ;;
          let title := PyStr.nl ++ PyStr.nl ++ "📦 REPOSITORIES" in
          Ok ([title; PyStr.repeat "-" 80] ++ blocks)%list
      end ;;
    Ok (PyStr.join PyStr.nl
          (heading ++ workspace_part ++ repository_part ++ USAGE_LINES)%list).

(** The [for arg in sys.argv[1:]] loop of [main]. *)
Fixpoint parse_args (args : list string) (alive_only as_json : bool)
  : M (bool * bool) :=
  match args with
  | [] => ret (alive_only, as_json)
  | arg :: rest =>
      if arg =? "--all" then parse_args rest false as_json
      else if arg =? "--json" then parse_args rest alive_only true
      else if arg =? "--help" then print __doc__ ;; sys_exit 0
      else parse_args rest alive_only as_json
  end.

(** [main], given [sys.argv]. *)
Definition main (argv : list string) : M unit :=
  flags <- parse_args (skipn 1 argv) true false ;;
  let '(alive_only, as_json) := flags in
  try_except
    (client <- __init__ h None None ;;
     datasources <- get_datasources h client alive_only ;;
     shown <- lift (format_datasources datasources as_json) ;;
     print shown)
    (fun e => eprint ("❌ Error: " ++ exn_str e) ;; sys_exit 1).

End Cli.
End datasources_py.

(* ===================================================================== *)
(** * scripts/check_auth.py *)
(* ===================================================================== *)

Module check_auth_py.
Section Cli.
Variable h : Host.
Local Open Scope py_scope.

Definition SERVICE_NAME : string := "codealive-api-key".

(** [find_key] *)
Definition find_key : M bool :=
  if opt_truthy (getenv h "CODEALIVE_API_KEY") then ret true
  else
    let system := platform_system h in
    found <-
      try_except
        (if system =? "Darwin" then
           r <- run_subprocess h
                  ["security"; "find-generic-password"; "-a";
                   getenv_or h "USER" ""; "-s"; SERVICE_NAME; "-w"] ;;
           ret ((fst r =? 0)%Z && PyStr.nonempty (PyStr.strip (snd r)))
         else if system =? "Linux" then
           r <- run_subprocess h
                  ["secret-tool"; "lookup"; "service"; SERVICE_NAME] ;;
           ret ((fst r =? 0)%Z && PyStr.nonempty (PyStr.strip (snd r)))
         else ret false)
        (fun _ => ret false) ;;
    ret found.

(** [main]; the skill directory it computes from [__file__] is the one
    [api_client.py] computes, so [setup.py] has the same path. *)
Definition main : M unit :=
  found <- find_key ;;
  if found : bool then
    print "CodeAlive API key found. Ready to use." ;;
    sys_exit 0
  else
    print (KEY_NOT_CONFIGURED (setup_path h)) ;;
    sys_exit 1.

End Cli.
End check_auth_py.

(* ===================================================================== *)
(** * setup.py: reading and verifying a key *)
(* ===================================================================== *)

Module setup_py.
Section Setup.
Variable h : Host.
Local Open Scope py_scope.

Definition SERVICE_NAME : string := "codealive-api-key".
Definition DEFAULT_BASE_URL : string := "https://app.codealive.ai".

(** [read_existing_key]; its [_read_windows_credential] reads the same
    target through the same calls as the client's. *)
Definition read_existing_key : M (option string) :=
  let key := getenv h "CODEALIVE_API_KEY" in
  if opt_truthy key then ret key
  else
    let system := platform_system h in
    try_except
      (if system =? "Darwin" then
         r <- run_subprocess h
                ["security"; "find-generic-password"; "-a";
                 getenv_or h "USER" ""; "-s"; SERVICE_NAME; "-w"] ;;
         if (fst r =? 0)%Z && PyStr.nonempty (PyStr.strip (snd r))
         then ret (Some (PyStr.strip (snd r)))
         else ret None
       else if system =? "Linux" then
         r <- run_subprocess h
                ["secret-tool"; "lookup"; "service"; SERVICE_NAME] ;;
         if (fst r =? 0)%Z && PyStr.nonempty (PyStr.strip (snd r))
         then ret (Some (PyStr.strip (snd r)))
         else ret None
       else if system =? "Windows" then
         _read_windows_credential h SERVICE_NAME
       else ret None)
      (fun _ => ret None).

(** The request [verify_key] sends. *)
Definition verify_request (api_key base_url : string) : Request :=
  {| req_method := "GET";
     req_url := base_url ++ "/api/datasources/alive";
     req_query := None;
     req_headers := [("Authorization", "Bearer " ++ api_key);
                     ("Content-Type", "application/json")];
     req_data := None;
     req_timeout := 15 |}.

(** [verify_key]; the [Request] is built before the [try], so that
    its [ValueError] for a URL it refuses leaves the function. *)
Definition verify_key (api_key base_url : string) : M (bool * string) :=
  let req := verify_request api_key base_url in
  match url_refused h (req_url req) with
  | Some msg => raise (ValueError msg)
  | None => ret tt
  end ;;
  emit (EvHttp req) ;;
  match urlopen h req with
  | HttpOk body =>
      match json_loads h body with
      | Decoded data =>
          let count := match data with JList l => length l | _ => O end in
          ret (true,
               "Connected. " ++ PyStr.of_nat count ++ " data source"
               ++ (if (count =? 1)%nat then "" else "s") ++ " available.")
      | DecodeFailed msg => ret (false, msg)
      end
  | HttpError code _ =>
      if (code =? 401)%Z then
        ret (false, "Authentication failed — API key is invalid or expired.")
      else ret (false, "API returned HTTP " ++ PyStr.of_Z code ++ ".")
  | UrlError reason =>
      ret (false, "Cannot connect to " ++ base_url ++ ": " ++ reason)
  end.

End Setup.

(** What [getpass.getpass] gives: the text typed, or [EOFError] or
    [KeyboardInterrupt], or another exception. *)
Inductive prompt_result : Type :=
| Typed (text : string)
| Cancelled
| PromptRaised (e : exn).

(** What [setup.py] does to the outside: the events of the other
    scripts, a subprocess that is fed on its standard input, a prompt. *)
Inductive setup_event : Type :=
| Base (e : event)
| EvStdin (argv : list string) (input : string)   (* subprocess.run(argv, input=...) *)
| EvPrompt (prompt : string).                     (* getpass.getpass(prompt) *)

(** Effectful code of [setup.py]. *)
Definition SM (A : Type) : Type := (outcome A * list setup_event)%type.

Definition sret {A} (a : A) : SM A := (Return a, []).
Definition sexit {A} (code : Z) : SM A := (Exit code, []).

Definition sbind {A B} (m : SM A) (f : A -> SM B) : SM B :=
  match fst m with
  | Return a => let r := f a in (fst r, (snd m ++ snd r)%list)
  | Raise e => (Raise e, snd m)
  | Exit c => (Exit c, snd m)
  end.

(** Code of the other scripts, run inside [setup.py]. *)
Definition told {A} (m : M A) : SM A := (fst m, map Base (snd m)).

(** [try: body / except Exception: handler] *)
Definition stry {A} (body : SM A) (handler : exn -> SM A) : SM A :=
  match fst body with
  | Raise e => let r := handler e in (fst r, (snd body ++ snd r)%list)
  | _ => body
  end.

Definition sprint (line : string) : SM unit := told (print line).

Declare Scope setup_scope.
Delimit Scope setup_scope with setup.
Notation "x <- m ;; k" := (sbind m (fun x => k))
  (at level 61, m at next level, right associativity) : setup_scope.
Notation "m ;; k" := (sbind m (fun _ => k))
  (at level 61, right associativity) : setup_scope.

Section Interactive.
Variable h : Host.
Variable run_with_input : list string -> string -> proc_result.
Variable getpass : string -> prompt_result.
Variable __doc__ : string.
Local Open Scope setup_scope.

(** [subprocess.run(argv, input=text, capture_output=True, text=True, timeout=10)] *)
Definition run_stdin (argv : list string) (input : string) : SM (Z * string) :=
  match run_with_input argv input with
  | Completed rc out => (Return (rc, out), [EvStdin argv input])
  | ProcRaised e => (Raise e, [EvStdin argv input])
  end.

(** [store_key] *)
Definition store_key (api_key : string) : SM bool :=
  let system := platform_system h in
  stry
    (if system =? "Darwin" then
       told (run_subprocess h
               ["security"; "delete-generic-password"; "-a";
                getenv_or h "USER" ""; "-s"; SERVICE_NAME]) ;;
       r <- told (run_subprocess h
                    ["security"; "add-generic-password"; "-a";
                     getenv_or h "USER" ""; "-s"; SERVICE_NAME; "-w"; api_key]) ;;
       sret (fst r =? 0)%Z
     else if system =? "Linux" then
       r <- run_stdin ["secret-tool"; "store"; "--label=CodeAlive API Key";
                       "service"; SERVICE_NAME] api_key ;;
       sret (fst r =? 0)%Z
     else if system =? "Windows" then
       r <- told (run_subprocess h
                    ["cmdkey"; "/generic:" ++ SERVICE_NAME; "/user:codealive";
                     "/pass:" ++ api_key]) ;;
       sret (fst r =? 0)%Z
     else sret false)
    (fun _ => sret false).

(** [print_step] *)
Definition print_step (n : nat) (text : string) : SM unit :=
  sprint (PyStr.nl ++ "  [" ++ PyStr.of_nat n ++ "/3] " ++ text).

(** [print_ready] *)
Definition print_ready : SM unit :=
  sprint "" ;;
  sprint ("  " ++ PyStr.repeat "-" 38) ;;
  sprint "  Ready! Start your agent and ask:" ;;
  sprint "" ;;
  sprint ("    " ++ PyStr.dquote ++ "How is authentication implemented?" ++ PyStr.dquote) ;;
  sprint ("    " ++ PyStr.dquote ++ "Show me error handling patterns" ++ PyStr.dquote) ;;
  sprint ("    " ++ PyStr.dquote ++ "Explain the payment processing flow" ++ PyStr.dquote) ;;
  sprint "".

(** The [for] loop of [main] over [sys.argv[1:]]: [--key] reads the
    argument after it, which the loop then examines in its turn. *)
Fixpoint parse_args (args : list string) (api_key_arg : option string)
    (env_mode : bool) : SM (option string * bool) :=
  match args with
  | [] => sret (api_key_arg, env_mode)
  | arg :: rest =>
      match arg =? "--key", rest with
      | true, next :: _ => parse_args rest (Some next) env_mode
      | _, _ =>
          if arg =? "--env" then parse_args rest api_key_arg true
          else if arg =? "--help" then sprint __doc__ ;; sexit 0
          else parse_args rest api_key_arg env_mode
      end
  end.

(** The shell profile that [main] names. *)
Definition profile : string :=
  if PyStr.contains "zsh" (getenv_or h "SHELL" "") then "~/.zshrc" else "~/.bashrc".

(** Step 3 of [main]. *)
Definition store_step (api_key : string) (env_mode : bool) : SM unit :=
  print_step 3 "Storing API key..." ;;
  (if env_mode then
     sprint ("      Add this to your " ++ profile ++ ":") ;;
     sprint ("      export CODEALIVE_API_KEY=" ++ PyStr.dquote ++ api_key ++ PyStr.dquote) ;;
     sprint "" ;;
     sprint ("      Then reload: source " ++ profile)
   else
     stored <- store_key api_key ;;
     if stored : bool then
       let system := platform_system h in
       let store_name :=
         if system =? "Darwin" then "macOS Keychain"
         else if system =? "Linux" then "secret-tool"
         else if system =? "Windows" then "Credential Manager"
         else "credential store" in
       sprint ("      Saved to " ++ store_name ++ ".")
     else
       sprint "      Could not save to OS credential store." ;;
       sprint ("      Add this to your " ++ profile ++ " instead:") ;;
       sprint ("      export CODEALIVE_API_KEY=" ++ PyStr.dquote ++ api_key ++ PyStr.dquote)) ;;
  print_ready.

(** Step 2 of [main] and what follows it. *)
Definition new_key_steps (base_url : string) (api_key_arg : option string)
    (env_mode : bool) : SM unit :=
  print_step 2 "API key required." ;;
  sprint ("      Get yours at: " ++ base_url ++ "/settings/api-keys") ;;
  sprint "" ;;
  api_key <-
    match api_key_arg with
    | Some (String _ _ as k) => sret k
    | _ =>
        let prompt := "      Paste your API key (input is hidden): " in
        match getpass prompt with
        | Typed text => (Return (PyStr.strip text), [EvPrompt prompt])
        | Cancelled =>
            (Return tt, [EvPrompt prompt]) ;;
            sprint (PyStr.nl ++ PyStr.nl ++ "  Setup cancelled.") ;;
            sexit 1
        | PromptRaised e => (Raise e, [EvPrompt prompt])
        end
    end ;;
  if negb (PyStr.nonempty api_key) then
    sprint "      No key provided. Setup cancelled." ;;
    sexit 1
  else
    verdict <- told (verify_key h api_key base_url) ;;
    if negb (fst verdict) then
      sprint (PyStr.nl ++ "      Key verification failed: " ++ snd verdict) ;;
      sprint "      Please check your key and try again." ;;
      sexit 1
    else
      sprint ("      Key verified. " ++ snd verdict) ;;
      store_step api_key env_mode.

(** [main], given [sys.argv]. *)
Definition main (argv : list string) : SM unit :=
  parsed <- parse_args (skipn 1 argv) None false ;;
  let '(api_key_arg, env_mode) := parsed in
  let base_url := getenv_or h "CODEALIVE_BASE_URL" DEFAULT_BASE_URL in
  sprint "" ;;
  sprint "  CodeAlive Context Engine — Setup" ;;
  sprint ("  " ++ PyStr.repeat "=" 38) ;;
  print_step 1 "Checking for existing API key..." ;;
  existing <- told (read_existing_key h) ;;
  match existing with
  | Some (String _ _ as key) =>
      verdict <- told (verify_key h key base_url) ;;
      if fst verdict : bool then
        sprint ("      Found a working API key. " ++ snd verdict) ;;
        print_ready
      else
        sprint ("      Found an existing key, but it didn't work: " ++ snd verdict) ;;
        sprint "      Let's set up a new one." ;;
        new_key_steps base_url api_key_arg env_mode
  | _ => new_key_steps base_url api_key_arg env_mode
  end.

End Interactive.
End setup_py.

(* ===================================================================== *)
(** * Sample hosts, for the examples below *)
(* ===================================================================== *)

Module Sample.

Definition quoted (s : string) : string := PyStr.dquote ++ s ++ PyStr.dquote.

(** Two decimals, rounding half to even, as [format(x, ".2f")] does. *)
Definition fixed2 (q : Q) : string :=
  let scaled := (Z.abs (Qnum q) * 100)%Z in
  let den := Zpos (Qden q) in
  let low := (scaled / den)%Z in
  let rest := (scaled mod den)%Z in
  let cents :=
    (if 2 * rest >? den then low + 1
     else if (2 * rest =? den) && Z.odd low then low + 1
     else low)%Z in
  let frac := (cents mod 100)%Z in
  (if (Qnum q <? 0)%Z then "-" else "")
  ++ PyStr.of_Z (cents / 100) ++ "."
  ++ (if (frac <? 10)%Z then "0" else "") ++ PyStr.of_Z frac.

Definition repr (v : json) : string := "<" ++ type_name v ++ ">".

(** A decoder that knows the texts of a table and rejects the rest. *)
Definition table_loads (table : dict json) (text : string) : loads_result :=
  match dict_get table text with
  | Some v => Decoded v
  | None => DecodeFailed "Expecting value: line 1 column 1 (char 0)"
  end.

(** A Linux machine with nothing configured: no environment variable,
    no [secret-tool], no network. *)
Definition bare : Host :=
  {| getenv := fun _ => None;
     platform_system := "Linux";
     subprocess_run := fun _ =>
       ProcRaised (FileNotFoundError
                     "[Errno 2] No such file or directory: 'secret-tool'");
     cred_read := fun _ => CredNone;
     setup_path := "/opt/skills/codealive-context-engine/setup.py";
     urlopen := fun _ => UrlError "[Errno 111] Connection refused";
     json_loads := table_loads [];
     py_repr := repr;
     py_fixed2 := fixed2;
     url_refused := fun _ => None;
     stdout_refuses := fun _ => None |}.

(** A Linux machine whose keyring holds a key under the service name. *)
Definition with_keyring : Host :=
  {| getenv := fun _ => None;
     platform_system := "Linux";
     subprocess_run := fun argv =>
       match argv with
       | ["secret-tool"; "lookup"; "service"; "codealive-api-key"] =>
           Completed 0 ("ca-stored-key" ++ PyStr.nl)
       | _ => Completed 1 ""
       end;
     cred_read := fun _ => CredNone;
     setup_path := "/opt/skills/codealive-context-engine/setup.py";
     urlopen := fun _ => UrlError "[Errno 111] Connection refused";
     json_loads := table_loads [];
     py_repr := repr;
     py_fixed2 := fixed2;
     url_refused := fun _ => None;
     stdout_refuses := fun _ => None |}.

(** A machine with the key in the environment and a server that answers
    every request with [reply], whose body [text] decodes to [value]. *)
Definition serving (reply : http_result) (text : string) (value : json) : Host :=
  {| getenv := fun name =>
       if name =? "CODEALIVE_API_KEY" then Some "ca-test-key" else None;
     platform_system := platform_system bare;
     subprocess_run := subprocess_run bare;
     cred_read := cred_read bare;
     setup_path := setup_path bare;
     urlopen := fun _ => reply;
     json_loads := table_loads [(text, value)];
     py_repr := repr;
     py_fixed2 := fixed2;
     url_refused := fun _ => None;
     stdout_refuses := fun _ => None |}.

Definition client : CodeAliveClient :=
  {| api_key := "ca-test-key";
     base_url := "https://app.codealive.ai";
     timeout := 60 |}.

(** [{"choices":[{"message":{"content":"X"}}], "id":"abc"}] *)
Definition chat_reply_text : string :=
  "{" ++ quoted "choices" ++ ":[{" ++ quoted "message" ++ ":{"
  ++ quoted "content" ++ ":" ++ quoted "X" ++ "}}], " ++ quoted "id" ++ ":"
  ++ quoted "abc" ++ "}".

Definition chat_reply : json :=
  JObject [("choices",
            JList [JObject [("message", JObject [("content", JString "X")])]]);
           ("id", JString "abc")].

(** [{"choices":[{"message":{"content":null}}],"id":"abc"}] *)
Definition null_content_text : string :=
  "{" ++ quoted "choices" ++ ":[{" ++ quoted "message" ++ ":{"
  ++ quoted "content" ++ ":null}}]," ++ quoted "id" ++ ":" ++ quoted "abc" ++ "}".

Definition null_content : json :=
  JObject [("choices",
            JList [JObject [("message", JObject [("content", JNull)])]]);
           ("id", JString "abc")].

(** [{"choices":[]}] *)
Definition no_choice_text : string := "{" ++ quoted "choices" ++ ":[]}".
Definition no_choice : json := JObject [("choices", JList [])].

(** [{"id":"abc"}] *)
Definition id_only_text : string :=
  "{" ++ quoted "id" ++ ":" ++ quoted "abc" ++ "}".
Definition id_only : json := JObject [("id", JString "abc")].

(** [{"error":{"message":"Invalid API key"}}] *)
Definition nested_error_text : string :=
  "{" ++ quoted "error" ++ ":{" ++ quoted "message" ++ ":"
  ++ quoted "Invalid API key" ++ "}}".

Definition nested_error : json :=
  JObject [("error", JObject [("message", JString "Invalid API key")])].

(** [{"message":"Invalid API key"}] *)
Definition flat_error_text : string :=
  "{" ++ quoted "message" ++ ":" ++ quoted "Invalid API key" ++ "}".

Definition flat_error : json := JObject [("message", JString "Invalid API key")].

(** One search hit, as the service returns it. *)
Definition hit : json :=
  JObject [("kind", JString "Symbol");
           ("identifier", JString "backend::src/auth/login.py::authenticate");
           ("location",
            JObject [("path", JString "src/auth/login.py");
                     ("range",
                      JObject [("start", JObject [("line", JInt 10)]);
                               ("end", JObject [("line", JInt 42)])])]);
           ("dataSource", JObject [("name", JString "backend")]);
           ("score", JFloat (87 # 100));
           ("snippet", JString "def authenticate(user): ...")].

End Sample.

(* ===================================================================== *)
(** * Definitions the statements below use *)
(* ===================================================================== *)

(** The body [chat] sends when it continues a conversation. *)
Definition continuation_body (question conversation_id : string) : dict json :=
  [("messages",
    JList [JObject [("role", JString "user"); ("content", JString question)]]);
   ("stream", JBool false);
   ("conversationId", JString conversation_id)].

(** The body [chat] sends when it starts a conversation on [names]. *)
Definition opening_body (question : string) (names : list string) : dict json :=
  [("messages",
    JList [JObject [("role", JString "user"); ("content", JString question)]]);
   ("stream", JBool false);
   ("names", JList (map JString names))].

(** A response in which the answer is missing: no [choices], or a first
    choice without [message], or a message without [content]. *)
Inductive missing_answer (response : dict json) : Prop :=
| no_choices :
    dict_get response "choices" = None -> missing_answer response
| no_message (choice : dict json) (others : list json) :
    dict_get response "choices" = Some (JList (JObject choice :: others)) ->
    dict_get choice "message" = None ->
    missing_answer response
| no_content (choice message : dict json) (others : list json) :
    dict_get response "choices" = Some (JList (JObject choice :: others)) ->
    dict_get choice "message" = Some (JObject message) ->
    dict_get message "content" = None ->
    missing_answer response.

(** [response.get(key)] on a dictionary. *)
Definition get_or_none (response : dict json) (key : string) : json :=
  match dict_get response key with
  | Some v => v
  | None => JNull
  end.

(** Command-line arguments that are options of [search.py] only, so that
    none of them names a data source. *)
Inductive flags_only : list string -> Prop :=
| flags_none : flags_only []
| flags_mode (value : string) (rest : list string) :
    flags_only rest -> flags_only ("--mode" :: value :: rest)
| flags_content (rest : list string) :
    flags_only rest -> flags_only ("--include-content" :: rest).

(** The first candidate that is a non-empty string. *)
Fixpoint first_non_empty (candidates : list (option string)) : option string :=
  match candidates with
  | [] => None
  | Some (String c s) :: _ => Some (String c s)
  | _ :: rest => first_non_empty rest
  end.

(** What a lookup tool of the platform reports on host [h]: the text it
    printed, without the blanks around it, when it ended with status 0
    and that text is not empty; nothing when it failed, printed blanks
    only, or could not be run. *)
Definition tool_output (h : Host) (argv : list string) : option string :=
  match subprocess_run h argv with
  | Completed returncode stdout =>
      if (returncode =? 0)%Z && PyStr.nonempty (PyStr.strip stdout)
      then Some (PyStr.strip stdout)
      else None
  | ProcRaised _ => None
  end.

(** The key that the credential store of the platform holds on host [h]
    under the service name [codealive-api-key]: the user's generic
    password in the macOS Keychain, as [security] reports it; the secret
    of the Linux keyring, as [secret-tool] reports it; the generic
    credential of the Windows Credential Manager.  No key on another
    platform, or when the store cannot be read. *)
Definition stored_key (h : Host) : option string :=
  if platform_system h =? "Darwin" then
    tool_output h ["security"; "find-generic-password"; "-a"; getenv_or h "USER" "";
                   "-s"; "codealive-api-key"; "-w"]
  else if platform_system h =? "Linux" then
    tool_output h ["secret-tool"; "lookup"; "service"; "codealive-api-key"]
  else if platform_system h =? "Windows" then
    match cred_read h "codealive-api-key" with
    | CredBlob secret => Some secret
    | CredNone | CredRaised _ => None
    end
  else None.

(** [h], with every access to the credential store raising [e]. *)
Definition store_raising (h : Host) (e : exn) : Host :=
  {| getenv := getenv h;
     platform_system := platform_system h;
     subprocess_run := fun _ => ProcRaised e;
     cred_read := fun _ => CredRaised e;
     setup_path := setup_path h;
     urlopen := urlopen h;
     json_loads := json_loads h;
     py_repr := py_repr h;
     py_fixed2 := py_fixed2 h;
     url_refused := url_refused h;
     stdout_refuses := stdout_refuses h |}.

(** The message of the exception raised on a 401 whose [error_msg] is the
    string [message]. *)
Definition auth_failed_text (self : CodeAliveClient) (message : string) : string :=
  "Authentication failed (401)"
  ++ (if PyStr.nonempty (PyStr.strip message) then ": " ++ message else "")
  ++ ". " ++ "Your API key may be invalid or expired. "
  ++ "Get a new key at: " ++ base_url self ++ "/settings/api-keys".

(** The output for one rendered block: the block, then the count line. *)
Definition single_result_output (block : list string) : string :=
  PyStr.join PyStr.nl (block ++ [(PyStr.nl ++ "(1 results)")%string])%list.

(** The HTTP requests of a run. *)
Definition requests {A} (m : M A) : list Request := http_requests (snd m).

(** The request [search] sends. *)
Definition search_request (self : CodeAliveClient) (query : string)
    (data_sources : list string) (mode : string) (include_content : bool)
  : Request :=
  build_request self "GET" "/api/search"
    (Some [("Query", PStr query);
           ("Mode", PStr mode);
           ("IncludeContent", PStr (if include_content then "true" else "false"));
           ("Names", PSeq data_sources)])
    None.

(** The request [chat] sends with [body]. *)
Definition chat_request (self : CodeAliveClient) (body : dict json) : Request :=
  build_request self "POST" "/api/chat/completions" None (Some (JObject body)).

(** The query, the mode and the content flag of each workflow's search. *)
Definition workflow_search (mode : workflow) (query : string)
  : string * string * bool :=
  match mode with
  | Understand => (query, "auto", false)
  | Dependency =>
      ("How is " ++ query ++ " used? Show me import statements and usage examples",
       "auto", true)
  | Pattern => ("Show me different implementations of " ++ query, "deep", true)
  | Implement =>
      ("Similar features to " ++ query ++ ", existing implementations",
       "auto", false)
  | Debug => ("Code related to " ++ query, "auto", true)
  end.

(** An error body from which [_make_request] can take a message: text
    that is not JSON, or a JSON object. *)
Definition plain_error_body (h : Host) (text : string) : Prop :=
  (exists msg, json_loads h text = DecodeFailed msg)
  \/ (exists d, json_loads h text = Decoded (JObject d)).

(** The name/value pairs of a search for [data_sources]. *)
Definition search_pairs (query mode : string) (include_content : bool)
    (data_sources : list string) : list (string * string) :=
  ([("Query", query);
    ("Mode", mode);
    ("IncludeContent", if include_content then "true" else "false")]
   ++ map (fun name => ("Names", name)) data_sources)%list.

(** A run that ends as a command-line tool should: normally, or with
    [sys.exit(0)], or with [sys.exit(1)] right after a line on stderr. *)
Definition ends_cleanly (run : M unit) : Prop :=
  fst run = Return tt
  \/ fst run = Exit 0
  \/ (fst run = Exit 1 /\ exists before line, snd run = (before ++ [EvStderr line])%list).

(** Code that never calls [sys.exit]. *)
Definition no_exit {A} (m : M A) : Prop :=
  match fst m with
  | Exit _ => False
  | _ => True
  end.

(** A JSON object. *)
Definition is_object (v : json) : Prop :=
  match v with
  | JObject _ => True
  | _ => False
  end.

(** The key that an event of [setup.py] writes to a credential store, when
    the event is one of the storing commands of [store_key]. *)
Definition stored_by (e : setup_py.setup_event) : option string :=
  match e with
  | setup_py.Base
      (EvSubprocess ["security"; "add-generic-password"; _; _; _; _; _; key]) =>
      Some key
  | setup_py.EvStdin ("secret-tool" :: "store" :: _) key => Some key
  | setup_py.Base (EvSubprocess ["cmdkey"; _; _; pass]) => Some (str_drop 6 pass)
  | _ => None
  end.

(** The keys that a run of [setup.py] tried to store. *)
Fixpoint store_attempts (t : list setup_py.setup_event) : list string :=
  match t with
  | [] => []
  | e :: t' =>
      match stored_by e with
      | Some key => key :: store_attempts t'
      | None => store_attempts t'
      end
  end.

(** The prompts of a run of [setup.py]. *)
Fixpoint prompts (t : list setup_py.setup_event) : list string :=
  match t with
  | [] => []
  | setup_py.EvPrompt p :: t' => p :: prompts t'
  | _ :: t' => prompts t'
  end.

(** The keys a piece of [setup.py] tried to store, and what it asked. *)
Definition attempts {A} (m : setup_py.SM A) : list string := store_attempts (snd m).
Definition asked {A} (m : setup_py.SM A) : list string := prompts (snd m).

(** [verify_key] accepts the key on host [h], at the base URL that
    [setup.py] uses. *)
Definition verified (h : Host) (key : string) : Prop :=
  exists message,
    fst (setup_py.verify_key h key
           (getenv_or h "CODEALIVE_BASE_URL" setup_py.DEFAULT_BASE_URL))
    = Return (true, message).

(** More hosts for the examples. *)
Module Fixture.

(** A Windows machine whose Credential Manager holds a key. *)
Definition windows_with_credential : Host :=
  {| getenv := fun _ => None;
     platform_system := "Windows";
     subprocess_run := fun _ => Completed 1 "";
     cred_read := fun target =>
       if target =? "codealive-api-key" then CredBlob "ca-windows-key" else CredNone;
     setup_path := "C:/skills/codealive-context-engine/setup.py";
     urlopen := fun _ => UrlError "[WinError 10061] Connection refused";
     json_loads := Sample.table_loads [];
     py_repr := Sample.repr;
     py_fixed2 := Sample.fixed2;
     url_refused := fun _ => None;
     stdout_refuses := fun _ => None |}.

(** A stand-in for [json.dumps(value, indent=2)]. *)
Definition dumps (v : json) : string := "<json " ++ type_name v ++ ">".

(** Two data sources, as the service lists them. *)
Definition listed : json :=
  JList [JObject [("name", JString "backend");
                  ("type", JString "Repository");
                  ("description", JString "API server");
                  ("url", JString "https://github.com/acme/backend");
                  ("state", JString "Alive")];
         JObject [("name", JString "platform-team");
                  ("type", JString "Workspace");
                  ("description", JString "All platform repositories");
                  ("state", JString "Processing")]].

(** A Linux machine with no key yet and a service that answers. *)
Definition fresh_online : Host :=
  {| getenv := fun _ => None;
     platform_system := "Linux";
     subprocess_run := fun _ => Completed 1 "";
     cred_read := fun _ => CredNone;
     setup_path := "/opt/skills/codealive-context-engine/setup.py";
     urlopen := fun _ => HttpOk "[...]";
     json_loads := Sample.table_loads [("[...]", listed)];
     py_repr := Sample.repr;
     py_fixed2 := Sample.fixed2;
     url_refused := fun _ => None;
     stdout_refuses := fun _ => None |}.

(** A secret-tool that stores whatever it is fed. *)
Definition accepting_store (argv : list string) (input : string) : proc_result :=
  Completed 0 "".

(** A user who pastes a key, with a line end. *)
Definition pasting (prompt : string) : setup_py.prompt_result :=
  setup_py.Typed ("ca-new-key" ++ PyStr.nl).

(** U+00A0 NO-BREAK SPACE and U+2003 EM SPACE, in UTF-8. *)
Definition nbsp : string :=
  String (ascii_of_nat 194) (String (ascii_of_nat 160) EmptyString).
Definition em_space : string :=
  String (ascii_of_nat 226) (String (ascii_of_nat 128)
    (String (ascii_of_nat 131) EmptyString)).

(** [h] with a [urllib] that wants a scheme in front of the first slash,
    and a standard output in a code page without the arrow U+2192. *)
Definition strict (h : Host) : Host :=
  {| getenv := getenv h;
     platform_system := platform_system h;
     subprocess_run := subprocess_run h;
     cred_read := cred_read h;
     setup_path := setup_path h;
     urlopen := urlopen h;
     json_loads := json_loads h;
     py_repr := py_repr h;
     py_fixed2 := py_fixed2 h;
     url_refused := fun url =>
       if PyStr.contains "://" url then None
       else Some ("unknown url type: '" ++ url ++ "'");
     stdout_refuses := fun text =>
       if PyStr.contains "→" text
       then Some "'charmap' codec can't encode character '\u2192'"
       else None |}.

End Fixture.

(* ===================================================================== *)
(** * The string operations on examples *)
(* ===================================================================== *)

Example strip_both_ends :
  PyStr.strip ("  ca-stored-key " ++ PyStr.nl) = "ca-stored-key"
  /\ PyStr.strip ("a b" ++ PyStr.nl) = "a b"
  /\ PyStr.strip (" " ++ PyStr.nl) = "".
Proof. repeat split; reflexivity. Qed.

Example strip_other_blanks :
  PyStr.strip (Fixture.nbsp ++ "slow" ++ Fixture.nbsp) = "slow"
  /\ PyStr.strip (Fixture.em_space ++ " a" ++ Fixture.nbsp ++ "b " ++ Fixture.em_space)
     = "a" ++ Fixture.nbsp ++ "b"
  /\ PyStr.strip (Fixture.nbsp ++ Fixture.em_space) = ""
  /\ PyStr.strip "→ x →" = "→ x →".
Proof. repeat split; reflexivity. Qed.

Example split_identifier :
  PyStr.split_colons "backend::src/auth/login.py::authenticate" =
    ["backend"; "src/auth/login.py"; "authenticate"]
  /\ PyStr.split_colons "plain" = ["plain"]
  /\ PyStr.split_colons ":::" = [""; ":"]
  /\ PyStr.split_colons "a::" = ["a"; ""].
Proof. repeat split; reflexivity. Qed.

Example contains_separator :
  PyStr.contains "::" "backend::12" = true
  /\ PyStr.contains "::" "backend:12" = false
  /\ PyStr.contains "" "" = true.
Proof. repeat split; reflexivity. Qed.

Example lower_bool :
  PyStr.lower "True" = "true" /\ PyStr.lower "False" = "false".
Proof. split; reflexivity. Qed.

Example fixed2_rounds_half_even :
  Sample.fixed2 (87 # 100) = "0.87"
  /\ Sample.fixed2 (1 # 8) = "0.12"
  /\ Sample.fixed2 (3 # 8) = "0.38"
  /\ Sample.fixed2 (inject_Z 5) = "5.00"
  /\ Sample.fixed2 (-1 # 1000) = "-0.00".
Proof. repeat split; reflexivity. Qed.

Example equality_of_values :
  py_eqb (JInt 1) (JFloat (1 # 1)) = true
  /\ py_eqb (JBool true) (JInt 1) = true
  /\ py_eqb (JString "1") (JInt 1) = false
  /\ py_eqb (JList [JInt 1]) (JList [JFloat (2 # 2)]) = true
  /\ py_eqb (JObject [("a", JInt 1); ("b", JNull)])
            (JObject [("b", JNull); ("a", JInt 1)]) = true.
Proof. repeat split; reflexivity. Qed.

(* ===================================================================== *)
(** * Events of a run *)
(* ===================================================================== *)

Section Traces.
Variable h : Host.

Lemma bind_fst {A B} (m : M A) (f : A -> M B) :
  fst (bind m f) =
  match fst m with
  | Return a => fst (f a)
  | Raise e => Raise e
  | Exit c => Exit c
  end.
Proof. unfold bind. destruct (fst m); reflexivity. Qed.

Lemma bind_snd {A B} (m : M A) (f : A -> M B) :
  snd (bind m f) =
  (snd m ++ match fst m with
            | Return a => snd (f a)
            | _ => []
            end)%list.
Proof.
  unfold bind. destruct (fst m); simpl; trivial; now rewrite app_nil_r.
Qed.

Lemma bind_assoc {A B C} (m : M A) (f : A -> M B) (g : B -> M C) :
  bind (bind m f) g = bind m (fun a => bind (f a) g).
Proof.
  unfold bind. destruct m as [[a|e|c] t]; simpl; trivial.
  destruct (f a) as [[b|e|c] u]; simpl; trivial.
  now rewrite app_assoc.
Qed.

Lemma lift_snd {A} (r : res A) : snd (lift r) = [].
Proof. destruct r; reflexivity. Qed.

Lemma lift_fst_ok {A} (r : res A) (a : A) : r = Ok a -> fst (lift r) = Return a.
Proof. intros ->. reflexivity. Qed.

Lemma http_requests_app (t u : trace) :
  http_requests (t ++ u)%list = (http_requests t ++ http_requests u)%list.
Proof.
  induction t as [|e t IH]; simpl; trivial.
  destruct e; simpl; now rewrite ?IH.
Qed.

(** [_make_request] opens exactly one connection, whatever comes back. *)
Lemma _make_request_snd self method endpoint params body :
  snd (_make_request h self method endpoint params body) =
  [EvHttp (build_request self method endpoint params body)].
Proof.
  unfold _make_request. rewrite bind_snd. simpl.
  destruct (urlopen h _) as [text|code text|reason]; simpl; trivial.
  - destruct (PyStr.nonempty text); simpl; trivial.
    destruct (json_loads h text); reflexivity.
  - now rewrite lift_snd.
Qed.

(** [search] sends its request for any list of names, the empty one
    included. *)
Lemma search_snd self query data_sources mode include_content :
  snd (search h self query data_sources mode include_content) =
  [EvHttp (build_request self "GET" "/api/search"
             (Some [("Query", PStr query);
                    ("Mode", PStr mode);
                    ("IncludeContent", PStr (if include_content then "true" else "false"));
                    ("Names", PSeq data_sources)])
             None)].
Proof.
  unfold search. rewrite _make_request_snd. destruct include_content; reflexivity.
Qed.

(** [chat] sends one request when its arguments pass the check, and
    none otherwise. *)
Lemma chat_snd self question data_sources conversation_id :
  snd (chat h self question data_sources conversation_id) =
  match chat_request_body question data_sources conversation_id with
  | Ok body =>
      [EvHttp (build_request self "POST" "/api/chat/completions" None
                 (Some (JObject body)))]
  | Err _ => []
  end.
Proof.
  unfold chat. rewrite bind_snd.
  destruct (chat_request_body question data_sources conversation_id) as [body|e];
    simpl; trivial.
  rewrite bind_snd, _make_request_snd.
  destruct (fst (_make_request h self _ _ _ _)); simpl; trivial.
  now rewrite lift_snd.
Qed.

(** What [chat] returns once its request has been answered. *)
Lemma chat_fst self question data_sources conversation_id body :
  chat_request_body question data_sources conversation_id = Ok body ->
  fst (chat h self question data_sources conversation_id) =
  match fst (_make_request h self "POST" "/api/chat/completions" None
               (Some (JObject body))) with
  | Return response => fst (lift (chat_result response))
  | Raise e => Raise e
  | Exit c => Exit c
  end.
Proof.
  intros Hbody. unfold chat. rewrite Hbody, bind_fst. simpl.
  now rewrite bind_fst.
Qed.

End Traces.

(* ===================================================================== *)
(** * Properties of [CodeAliveClient.chat] *)
(* ===================================================================== *)

Section ChatProperties.
Variable h : Host.

(** C1. With no [conversation_id] and with [data_sources] absent or
    empty, [chat] raises [ValueError] and emits no event at all: no
    request is sent. *)
Theorem chat_without_target_raises (self : CodeAliveClient) (question : string) :
  chat h self question None None =
    (Raise (ValueError "Either conversation_id or data_sources must be provided"), [])
  /\ chat h self question (Some []) None =
    (Raise (ValueError "Either conversation_id or data_sources must be provided"), []).
Proof. split; reflexivity. Qed.

Lemma chat_request_body_continue question data_sources c cs :
  chat_request_body question data_sources (Some (String c cs)) =
  Ok (continuation_body question (String c cs)).
Proof. destruct data_sources as [[|d ds]|]; reflexivity. Qed.

(** C2, amended.  With a non-empty [conversation_id], whatever
    [data_sources] is, [chat] sends exactly one request; its body holds
    [conversationId], set to the given id, and has no [names] key. *)
Theorem chat_continuation_ignores_sources (self : CodeAliveClient)
    (question : string) (data_sources : option (list string))
    (c : ascii) (cs : string) :
  let body := continuation_body question (String c cs) in
  http_requests (snd (chat h self question data_sources (Some (String c cs)))) =
    [build_request self "POST" "/api/chat/completions" None (Some (JObject body))]
  /\ req_data (build_request self "POST" "/api/chat/completions" None
                 (Some (JObject body))) = Some (JObject body)
  /\ dict_get body "conversationId" = Some (JString (String c cs))
  /\ dict_get body "names" = None.
Proof.
  cbv zeta. rewrite chat_snd, chat_request_body_continue.
  repeat split; reflexivity.
Qed.

(** What [_make_request] returns for a 200 response with a body. *)
Lemma _make_request_decoded self method endpoint params body text v :
  urlopen h (build_request self method endpoint params body) = HttpOk text ->
  PyStr.nonempty text = true ->
  json_loads h text = Decoded v ->
  fst (_make_request h self method endpoint params body) = Return v.
Proof.
  intros Hopen Hne Hdec. unfold _make_request. rewrite bind_fst. simpl.
  now rewrite Hopen, Hne, Hdec.
Qed.

(** C4. When the service answers the chat request with
    [{"choices":[{"message":{"content":X}}], "id":abc}], [chat] returns
    a dictionary whose [answer] is [X] and whose [conversation_id] is
    [abc] (next to the whole response). *)
Theorem chat_returns_answer_and_id (self : CodeAliveClient) (question : string)
    (data_sources : option (list string)) (conversation_id : option string)
    (body : dict json) (text X abc : string) :
  let response :=
    JObject [("choices",
              JList [JObject [("message", JObject [("content", JString X)])]]);
             ("id", JString abc)] in
  chat_request_body question data_sources conversation_id = Ok body ->
  urlopen h (build_request self "POST" "/api/chat/completions" None
               (Some (JObject body))) = HttpOk text ->
  PyStr.nonempty text = true ->
  json_loads h text = Decoded response ->
  fst (chat h self question data_sources conversation_id) =
    Return (JObject [("answer", JString X);
                     ("conversation_id", JString abc);
                     ("full_response", response)]).
Proof.
  cbv zeta. intros Hbody Hopen Hne Hdec.
  rewrite (chat_fst h _ _ _ _ _ Hbody).
  now rewrite (_make_request_decoded _ _ _ _ _ _ _ Hopen Hne Hdec).
Qed.

Lemma chat_answer_missing (response : dict json) :
  missing_answer response -> chat_answer (JObject response) = Ok (JString "").
Proof.
  unfold chat_answer.
  intros [Hc | choice others Hc Hm | choice message others Hc Hm Hk];
    simpl; rewrite Hc; simpl; trivial; rewrite Hm; simpl; trivial.
  now rewrite Hk.
Qed.

(** A [content] that is present is the answer, whatever it is. *)
Lemma chat_answer_present (response choice message : dict json)
    (others : list json) (content : json) :
  dict_get response "choices" = Some (JList (JObject choice :: others)) ->
  dict_get choice "message" = Some (JObject message) ->
  dict_get message "content" = Some content ->
  chat_answer (JObject response) = Ok content.
Proof.
  intros Hc Hm Hk. unfold chat_answer. simpl. rewrite Hc. simpl.
  rewrite Hm. simpl. now rewrite Hk.
Qed.

(** C5, amended.  When the decoded response is a dictionary in which
    [choices] is absent, or whose first choice is a dictionary without
    [message], or whose message is a dictionary without [content],
    [chat] does not raise: it returns the empty string as [answer]. *)
Theorem chat_missing_answer_is_empty (self : CodeAliveClient) (question : string)
    (data_sources : option (list string)) (conversation_id : option string)
    (body response : dict json) :
  chat_request_body question data_sources conversation_id = Ok body ->
  fst (_make_request h self "POST" "/api/chat/completions" None
         (Some (JObject body))) = Return (JObject response) ->
  missing_answer response ->
  fst (chat h self question data_sources conversation_id) =
    Return (JObject [("answer", JString "");
                     ("conversation_id", get_or_none response "id");
                     ("full_response", JObject response)]).
Proof.
  intros Hbody Hresp Hmiss.
  rewrite (chat_fst h _ _ _ _ _ Hbody), Hresp.
  unfold chat_result. now rewrite (chat_answer_missing _ Hmiss).
Qed.

End ChatProperties.

(** C2, as stated, fails for the empty id: [chat] then starts a new
    conversation on the data sources, with no [conversationId]. *)
Lemma chat_empty_id_sends_names :
  let body := opening_body "How does login work?" ["backend"] in
  map req_data
    (http_requests
       (snd (chat Sample.bare Sample.client "How does login work?"
               (Some ["backend"]) (Some "")))) = [Some (JObject body)]
  /\ dict_get body "conversationId" = None
  /\ dict_get body "names" = Some (JList [JString "backend"]).
Proof. repeat split; reflexivity. Qed.

Lemma chat_returns_answer_and_id_witness :
  fst (chat (Sample.serving (HttpOk Sample.chat_reply_text)
               Sample.chat_reply_text Sample.chat_reply)
         Sample.client "How does login work?" (Some ["backend"]) None) =
  Return (JObject [("answer", JString "X");
                   ("conversation_id", JString "abc");
                   ("full_response", Sample.chat_reply)]).
Proof.
  apply (chat_returns_answer_and_id
           (Sample.serving (HttpOk Sample.chat_reply_text)
              Sample.chat_reply_text Sample.chat_reply)
           Sample.client "How does login work?" (Some ["backend"]) None
           (opening_body "How does login work?" ["backend"])
           Sample.chat_reply_text "X" "abc"); reflexivity.
Defined.

(** C5, as stated, fails when [content] is present but is not a string:
    the value is handed on as the answer. *)
Lemma chat_null_content_is_not_empty :
  fst (chat (Sample.serving (HttpOk Sample.null_content_text)
               Sample.null_content_text Sample.null_content)
         Sample.client "How does login work?" (Some ["backend"]) None) =
  Return (JObject [("answer", JNull);
                   ("conversation_id", JString "abc");
                   ("full_response", Sample.null_content)]).
Proof. reflexivity. Qed.

(** An empty [choices] list is not covered by the defaults either. *)
Example chat_empty_choices_raises :
  fst (chat (Sample.serving (HttpOk Sample.no_choice_text)
               Sample.no_choice_text Sample.no_choice)
         Sample.client "How does login work?" (Some ["backend"]) None) =
  Raise (IndexError "list index out of range").
Proof. reflexivity. Qed.

Lemma chat_missing_answer_is_empty_witness :
  fst (chat (Sample.serving (HttpOk Sample.id_only_text)
               Sample.id_only_text Sample.id_only)
         Sample.client "How does login work?" (Some ["backend"]) None) =
  Return (JObject [("answer", JString "");
                   ("conversation_id", JString "abc");
                   ("full_response", Sample.id_only)]).
Proof.
  apply (chat_missing_answer_is_empty
           (Sample.serving (HttpOk Sample.id_only_text)
              Sample.id_only_text Sample.id_only)
           Sample.client "How does login work?" (Some ["backend"]) None
           (opening_body "How does login work?" ["backend"])
           [("id", JString "abc")]).
  - reflexivity.
  - reflexivity.
  - apply no_choices. reflexivity.
Defined.

(* ===================================================================== *)
(** * Properties of [search] and of the [search.py] command line *)
(* ===================================================================== *)

Section SearchCommand.
Variables (h : Host) (doc : string).

Lemma parse_args_flags_only (args : list string) :
  flags_only args ->
  forall mode include_content data_sources,
  exists mode' include_content',
    parse_args doc args mode include_content data_sources =
    (Return (mode', include_content', data_sources), []).
Proof.
  induction 1 as [|value rest _ IH|rest _ IH]; intros mode ic ds.
  - exists mode, ic. reflexivity.
  - destruct (IH value ic ds) as (m & i & E). exists m, i. exact E.
  - destruct (IH mode true ds) as (m & i & E). exists m, i. exact E.
Qed.

(** C3, amended.  The check for a missing data source is the command
    line's: when the arguments after the query are options only,
    [main] prints the error and exits with status 1, and that line is
    the only event: no client is built and no request is sent.  (The
    client's [search] method does no such check, see [search_snd].) *)
Theorem search_cli_requires_data_source (script query arg : string)
    (rest : list string) :
  flags_only (arg :: rest) ->
  main h doc (script :: query :: arg :: rest) =
    (Exit 1,
     [EvStderr "Error: At least one data source is required. Run datasources.py to see available sources."]).
Proof.
  intros Hflags.
  destruct (parse_args_flags_only _ Hflags "auto" false []) as (m & i & E).
  unfold main. cbn [length Nat.ltb Nat.leb skipn nth].
  rewrite E. reflexivity.
Qed.

End SearchCommand.

(** C3, as stated, fails on the client: [search] with an empty list of
    names sends its request (without any [Names] pair) and returns what
    the service answers. *)
Lemma search_without_sources_sends_request :
  search (Sample.serving (HttpOk "[]") "[]" (JList [])) Sample.client
    "login flow" [] "auto" false =
  (Return (JList []),
   [EvHttp {| req_method := "GET";
              req_url := "https://app.codealive.ai/api/search";
              req_query := Some [("Query", "login flow");
                                 ("Mode", "auto");
                                 ("IncludeContent", "false")];
              req_headers := [("Authorization", "Bearer ca-test-key");
                              ("Content-Type", "application/json")];
              req_data := None;
              req_timeout := 60 |}]).
Proof. reflexivity. Qed.

(** With a data source on the command line the request goes out. *)
Example search_cli_with_data_source :
  let run := main (Sample.serving (HttpOk "[]") "[]" (JList [])) "usage"
               ["search.py"; "login flow"; "backend"; "--mode"; "deep"] in
  fst run = Return tt
  /\ requests run = [search_request Sample.client "login flow" ["backend"] "deep" false]
  /\ last (snd run) (EvStdout "") = EvStdout "No results found.".
Proof. repeat split; reflexivity. Qed.

Lemma search_cli_requires_data_source_witness :
  main Sample.bare "usage" ["search.py"; "login flow"; "--mode"; "deep"; "--include-content"] =
  (Exit 1,
   [EvStderr "Error: At least one data source is required. Run datasources.py to see available sources."]).
Proof.
  apply (search_cli_requires_data_source Sample.bare "usage" "search.py"
           "login flow" "--mode" ["deep"; "--include-content"]).
  apply flags_mode, flags_content, flags_none.
Defined.

(* ===================================================================== *)
(** * Credential resolution *)
(* ===================================================================== *)

Section Credentials.
Variable h : Host.

(** The cases of [_get_key_from_keychain]: the platform, then what the
    store gives. *)
Ltac keychain_cases :=
  unfold _get_key_from_keychain, try_except, run_subprocess,
    _read_windows_credential, bind, emit, ret, raise;
  destruct (platform_system h =? "Darwin");
  [ cbn; destruct (subprocess_run h _) as [rc out|e]; cbn;
    [destruct ((rc =? 0)%Z && _); cbn|]
  | destruct (platform_system h =? "Linux");
    [ cbn; destruct (subprocess_run h _) as [rc out|e]; cbn;
      [destruct ((rc =? 0)%Z && _); cbn|]
    | destruct (platform_system h =? "Windows");
      [ cbn; destruct (cred_read h _); cbn | cbn ] ] ].

(** Whatever the store does, the lookup returns. *)
Lemma _get_key_from_keychain_returns :
  exists v, fst (_get_key_from_keychain h) = Return v.
Proof. keychain_cases; eauto. Qed.

(** The lookup talks to the credential store only. *)
Lemma _get_key_from_keychain_offline :
  http_requests (snd (_get_key_from_keychain h)) = [].
Proof. keychain_cases; reflexivity. Qed.

(** A store whose every access raises counts as an empty store. *)
Lemma _get_key_from_keychain_swallows (e : exn) :
  fst (_get_key_from_keychain (store_raising h e)) = Return None.
Proof.
  unfold _get_key_from_keychain, try_except, run_subprocess,
    _read_windows_credential.
  cbn [platform_system subprocess_run cred_read store_raising].
  destruct (platform_system h =? "Darwin"); [reflexivity|].
  destruct (platform_system h =? "Linux"); [reflexivity|].
  destruct (platform_system h =? "Windows"); reflexivity.
Qed.

(** The lookup returns the key that the credential store of the
    platform holds, and nothing when the store has none or cannot be
    read. *)
Lemma _get_key_from_keychain_reads_the_store :
  fst (_get_key_from_keychain h) = Return (stored_key h).
Proof.
  unfold stored_key, tool_output, _get_key_from_keychain, try_except,
    run_subprocess, _read_windows_credential, bind, emit, ret, raise.
  destruct (platform_system h =? "Darwin").
  { cbn -[PyStr.strip]. destruct (subprocess_run h _) as [rc out|e];
      cbn -[PyStr.strip]; [|reflexivity].
    now destruct ((rc =? 0)%Z && _). }
  destruct (platform_system h =? "Linux").
  { cbn -[PyStr.strip]. destruct (subprocess_run h _) as [rc out|e];
      cbn -[PyStr.strip]; [|reflexivity].
    now destruct ((rc =? 0)%Z && _). }
  destruct (platform_system h =? "Windows"); [|reflexivity].
  cbn. now destruct (cred_read h _).
Qed.

(** C6. The key [__init__] settles on is the first non-empty string
    among the explicit argument, [CODEALIVE_API_KEY] and the key that the
    credential store of the platform holds ([stored_key]: what
    [security], [secret-tool] or the Credential Manager gives under
    [codealive-api-key]), in that order; the store lookup never raises,
    and a store whose every access raises yields nothing; when no source
    has a non-empty string [__init__] raises [ValueError]; and in no case
    is a request sent. *)
Theorem api_key_resolution_order (explicit url : option string) :
  (exists v, fst (_get_key_from_keychain h) = Return v)
  /\ (forall e, fst (_get_key_from_keychain (store_raising h e)) = Return None)
  /\ match first_non_empty
             [explicit; getenv h "CODEALIVE_API_KEY"; stored_key h] with
     | Some k =>
         exists client,
           fst (__init__ h explicit url) = Return client
           /\ api_key client = k
     | None =>
         fst (__init__ h explicit url) =
         Raise (ValueError (KEY_NOT_CONFIGURED (setup_path h)))
     end
  /\ http_requests (snd (__init__ h explicit url)) = [].
Proof.
  split; [apply _get_key_from_keychain_returns|].
  split; [apply _get_key_from_keychain_swallows|].
  unfold __init__, resolve_api_key.
  rewrite bind_fst, bind_snd, http_requests_app.
  generalize _get_key_from_keychain_reads_the_store.
  generalize (stored_key h). intros stored Hstored.
  destruct explicit as [[|c s]|]; simpl.
  2:{ split; [eexists; split; reflexivity|].
      now destruct url as [[|? ?]|]. }
  all: destruct (getenv h "CODEALIVE_API_KEY") as [[|c s]|]; simpl.
  all: try (split; [eexists; split; reflexivity|];
            now destruct url as [[|? ?]|]).
  all: rewrite _get_key_from_keychain_offline, Hstored;
    destruct stored as [[|c s]|]; simpl;
    (split; [first [reflexivity | eexists; split; reflexivity]|]);
    trivial; now destruct url as [[|? ?]|].
Qed.

End Credentials.

Example explicit_key_wins :
  __init__ (Sample.serving (HttpOk "") "" JNull) (Some "ca-explicit") None =
  (Return {| api_key := "ca-explicit";
             base_url := "https://app.codealive.ai";
             timeout := 60 |}, []).
Proof. reflexivity. Qed.

Example environment_key_is_second :
  __init__ (Sample.serving (HttpOk "") "" JNull) (Some "") None =
  (Return {| api_key := "ca-test-key";
             base_url := "https://app.codealive.ai";
             timeout := 60 |}, []).
Proof. reflexivity. Qed.

Example stored_key_is_last :
  __init__ Sample.with_keyring None None =
  (Return {| api_key := "ca-stored-key";
             base_url := "https://app.codealive.ai";
             timeout := 60 |},
   [EvSubprocess ["secret-tool"; "lookup"; "service"; "codealive-api-key"]]).
Proof. reflexivity. Qed.

Example missing_tool_is_not_found :
  __init__ Sample.bare None None =
  (Raise (ValueError (KEY_NOT_CONFIGURED "/opt/skills/codealive-context-engine/setup.py")),
   [EvSubprocess ["secret-tool"; "lookup"; "service"; "codealive-api-key"]]).
Proof. reflexivity. Qed.

(* ===================================================================== *)
(** * HTTP 401 *)
(* ===================================================================== *)

Section AuthFailure.
Variable h : Host.

(** When the error message is a string (the body is not JSON, or is a
    dictionary whose [message] or [error] is a string, or has neither),
    a 401 raises the authentication failure, with the status, the
    server's message and the settings page of the base URL. *)
Lemma auth_failure_with_text self method endpoint params body text message :
  urlopen h (build_request self method endpoint params body) = HttpError 401 text ->
  error_message h text = Ok (JString message) ->
  fst (_make_request h self method endpoint params body) =
  Raise (PlainException (auth_failed_text self message)).
Proof.
  intros Hopen Hmsg. unfold _make_request. rewrite bind_fst. simpl.
  rewrite Hopen. unfold http_error. rewrite Hmsg. reflexivity.
Qed.

(** When the error message is anything but a string, the 401 branch
    fails on [error_msg.strip()]. *)
Lemma auth_failure_without_text self method endpoint params body text value :
  urlopen h (build_request self method endpoint params body) = HttpError 401 text ->
  error_message h text = Ok value ->
  py_strip value = Err (AttributeError (type_name value) "strip") ->
  fst (_make_request h self method endpoint params body) =
  Raise (AttributeError (type_name value) "strip").
Proof.
  intros Hopen Hmsg Hstrip. unfold _make_request. rewrite bind_fst. simpl.
  rewrite Hopen. unfold http_error. rewrite Hmsg. cbn [rbind].
  rewrite Z.eqb_refl, Hstrip. reflexivity.
Qed.

End AuthFailure.

Example auth_failure_flat_error :
  fst (_make_request
         (Sample.serving (HttpError 401 Sample.flat_error_text)
            Sample.flat_error_text Sample.flat_error)
         Sample.client "GET" "/api/datasources/alive" None None) =
  Raise (PlainException
           "Authentication failed (401): Invalid API key. Your API key may be invalid or expired. Get a new key at: https://app.codealive.ai/settings/api-keys").
Proof. reflexivity. Qed.

(** C7 at a 401 whose body is [{"error":{"message":"Invalid API key"}}]:
    [error_msg] is the inner dictionary, [error_msg.strip()] raises
    [AttributeError], and the authentication failure is never built. *)
Theorem auth_failure_nested_error_raises_attribute_error :
  fst (_make_request
         (Sample.serving (HttpError 401 Sample.nested_error_text)
            Sample.nested_error_text Sample.nested_error)
         Sample.client "GET" "/api/datasources/alive" None None) =
  Raise (AttributeError "dict" "strip").
Proof. reflexivity. Qed.

(** The same body under a 403 is reported as the access failure. *)
Example access_denied_nested_error :
  fst (_make_request
         (Sample.serving (HttpError 403 Sample.nested_error_text)
            Sample.nested_error_text Sample.nested_error)
         Sample.client "GET" "/api/datasources/alive" None None) =
  Raise (PlainException
           "Access denied (403): <dict>. Your API key may lack permissions for this operation.").
Proof. reflexivity. Qed.

(* ===================================================================== *)
(** * Properties of [format_search_results] *)
(* ===================================================================== *)

Section Formatter.
Variable h : Host.

(** An envelope with other keys next to [results] is read the same way. *)
Lemma format_envelope (envelope : dict json) (items : list json)
    (include_content : bool) :
  dict_get envelope "results" = Some (JList items) ->
  format_search_results h (JObject envelope) include_content =
  format_search_results h (JList items) include_content.
Proof.
  intros Hres. unfold format_search_results, result_items.
  destruct envelope as [|kv envelope']; [discriminate|].
  cbn [truthy negb py_contains rbind]. unfold dict_mem, py_getitem.
  rewrite Hres. cbn [rbind].
  destruct items; reflexivity.
Qed.

(** C8. The same items give the same output (or the same exception)
    whether the response is the bare list or the list wrapped in a
    [{"results": [...]}] envelope. *)
Theorem format_same_for_list_and_envelope (items : list json)
    (include_content : bool) :
  format_search_results h (JList items) include_content =
  format_search_results h (JObject [("results", JList items)]) include_content.
Proof. symmetry. now apply format_envelope. Qed.

Lemma rbind_ok {A B} (r : res A) (f : A -> res B) (b : B) :
  rbind r f = Ok b -> exists a, r = Ok a /\ f a = Ok b.
Proof. destruct r as [a|e]; simpl; [eauto|discriminate]. Qed.

(** One step through a successful chain of [<~]. *)
Ltac rbind_step H :=
  match type of H with
  | rbind _ _ = Ok _ =>
      let a := fresh "v" in
      let E := fresh "E" in
      apply rbind_ok in H; destruct H as (a & E & H); cbv beta zeta in H
  end.

(** A block that is rendered starts with its header line, numbered [idx]. *)
Lemma render_item_header idx result block :
  render_item h idx result = Ok block ->
  exists kind rest,
    block = (PyStr.nl ++ "--- Result #" ++ PyStr.of_nat idx ++ " [" ++ kind ++ "] ---")
            :: rest.
Proof.
  unfold render_item. intros H. repeat rbind_step H.
  injection H as <-. do 2 eexists. reflexivity.
Qed.

(** C10, amended.  A non-empty dictionary without a [results] key is
    formatted as the list holding that one dictionary: its block as
    result #1, then the count 1; when the block cannot be rendered the
    exception comes out instead. *)
Theorem format_single_mapping (first : string * json) (others : dict json)
    (include_content : bool) :
  let response := first :: others in
  dict_get response "results" = None ->
  format_search_results h (JObject response) include_content =
    format_search_results h (JList [JObject response]) include_content
  /\ format_search_results h (JObject response) include_content =
    rbind (render_item h 1 (JObject response))
      (fun block => Ok (single_result_output block)).
Proof.
  cbv zeta. intros Hres. unfold format_search_results, result_items.
  cbn [truthy negb py_contains rbind]. unfold dict_mem. rewrite Hres.
  cbn [truthy negb rbind py_iter render_items py_len length].
  split; [reflexivity|].
  destruct (render_item h 1 _) as [block|e]; cbn [rbind]; trivial.
  now rewrite app_nil_r.
Qed.

End Formatter.

Example render_hit :
  render_item Sample.bare 1 Sample.hit =
  Ok [PyStr.nl ++ "--- Result #1 [Symbol] ---";
      "  File: src/auth/login.py:10-42";
      "  Symbol: authenticate";
      "  Source: backend";
      "  Relevance: 0.87";
      PyStr.nl ++ "```" ++ PyStr.nl ++ "def authenticate(user): ..." ++ PyStr.nl ++ "```"].
Proof. reflexivity. Qed.

(** A dictionary with a malformed field makes the formatter raise. *)
Example format_null_location_raises :
  format_search_results Sample.bare (JObject [("location", JNull)]) false =
  Err (AttributeError "NoneType" "get").
Proof. reflexivity. Qed.

(** C10, as stated, fails for the empty dictionary, which has no
    [results] key and is reported as no results. *)
Lemma format_empty_mapping_reports_nothing :
  format_search_results Sample.bare (JObject []) false = Ok "No results found.".
Proof. reflexivity. Qed.

Lemma format_single_mapping_witness :
  format_search_results Sample.bare Sample.hit false =
    format_search_results Sample.bare (JList [Sample.hit]) false
  /\ format_search_results Sample.bare Sample.hit false =
    rbind (render_item Sample.bare 1 Sample.hit)
      (fun block => Ok (single_result_output block)).
Proof.
  apply (format_single_mapping Sample.bare ("kind", JString "Symbol")).
  reflexivity.
Defined.

(* ===================================================================== *)
(** * Properties of the explore workflows *)
(* ===================================================================== *)

Section Workflows.
Variable h : Host.

Lemma requests_bind {A B} (m : M A) (f : A -> M B) :
  requests (bind m f) =
  (requests m ++ match fst m with
                 | Return a => requests (f a)
                 | _ => []
                 end)%list.
Proof.
  unfold requests. rewrite bind_snd, http_requests_app.
  now destruct (fst m).
Qed.

Lemma requests_print {B} (line : string) (f : unit -> M B) :
  requests (bind (print line) f) = requests (f tt).
Proof. reflexivity. Qed.

Lemma requests_lift {A B} (r : res A) (f : A -> M B) :
  requests (bind (lift r) f) =
  match r with
  | Ok a => requests (f a)
  | Err _ => []
  end.
Proof. destruct r; reflexivity. Qed.

Lemma requests_search {B} self query data_sources mode include_content
    (f : json -> M B) :
  requests (bind (search h self query data_sources mode include_content) f) =
  search_request self query data_sources mode include_content
  :: match fst (search h self query data_sources mode include_content) with
     | Return a => requests (f a)
     | _ => []
     end.
Proof.
  rewrite requests_bind. unfold requests at 1. now rewrite search_snd.
Qed.

Lemma banner_requests {B} mode_line subject_line data_sources (f : unit -> M B) :
  requests (bind (banner mode_line subject_line data_sources) f) = requests (f tt).
Proof. reflexivity. Qed.

Lemma report_requests title chat_result :
  requests (report h title chat_result) = [].
Proof.
  unfold report. rewrite !requests_print, requests_lift.
  now destruct (py_getitem chat_result "answer").
Qed.

Lemma show_locations_requests {B} (items : list json) (f : unit -> M B) :
  forall idx,
    requests (bind (show_locations h idx items) f) = requests (f tt)
    \/ requests (bind (show_locations h idx items) f) = [].
Proof.
  induction items as [|result rest IH]; intros idx; [now left|].
  cbn [show_locations].
  rewrite bind_assoc, requests_lift.
  destruct (py_get result "location" (JObject [])) as [location|e]; [|now right].
  rewrite bind_assoc, requests_lift.
  destruct (py_or _ _) as [file_path|e]; [|now right].
  rewrite bind_assoc, requests_lift.
  destruct (py_get location "range" (JObject [])) as [range_info|e]; [|now right].
  rewrite bind_assoc, requests_lift.
  destruct (py_or _ _) as [line|e]; [|now right].
  rewrite bind_assoc, requests_print.
  apply IH.
Qed.

Lemma requests_chat self question data_sources conversation_id :
  requests (chat h self question data_sources conversation_id) =
  match chat_request_body question data_sources conversation_id with
  | Ok body => [chat_request self body]
  | Err _ => []
  end.
Proof.
  unfold requests. rewrite chat_snd.
  now destruct (chat_request_body question data_sources conversation_id).
Qed.

(** After the search: the chat call and the report send the chat request
    or nothing. *)
Lemma consult_requests self question data_sources title :
  let tail := requests (bind (chat h self question (Some data_sources) None)
                          (fun chat_result => report h title chat_result)) in
  tail = [] \/ exists body, tail = [chat_request self body].
Proof.
  cbv zeta. rewrite requests_bind, requests_chat.
  assert (Hrest : match fst (chat h self question (Some data_sources) None) with
                  | Return a => requests (report h title a)
                  | _ => []
                  end = []).
  { destruct (fst (chat h self question (Some data_sources) None));
      now rewrite ?report_requests. }
  rewrite Hrest, app_nil_r.
  destruct (chat_request_body question (Some data_sources) None) as [body|e];
    [right; now exists body | now left].
Qed.

(** After the search of every workflow but [explore_understand]. *)
Lemma after_search_requests (outcome_ : outcome json) self line question
    data_sources title :
  let tail :=
    match outcome_ with
    | Return _ =>
        requests (bind (print line)
                    (fun _ => bind (print "")
                       (fun _ => bind (chat h self question (Some data_sources) None)
                          (fun chat_result => report h title chat_result))))
    | _ => []
    end in
  tail = [] \/ exists body, tail = [chat_request self body].
Proof.
  cbv zeta. destruct outcome_; [|now left|now left].
  rewrite !requests_print. apply consult_requests.
Qed.

(** C9, amended.  Every workflow sends one search request, first, with
    the flags of [workflow_search]: [pattern] searches in [deep] mode
    with content; [dependency] and [debug] search in [auto] mode with
    content; [understand] and [implement] search in [auto] mode without
    content.  The only other request a workflow may send is the chat
    request that follows. *)
Theorem explore_search_flags (mode : workflow) (self : CodeAliveClient)
    (query : string) (data_sources : list string) :
  let '(search_query, search_mode, content) := workflow_search mode query in
  exists rest,
    requests (explore h mode self query data_sources) =
      search_request self search_query data_sources search_mode content :: rest
    /\ (rest = [] \/ exists body, rest = [chat_request self body]).
Proof.
  destruct mode; cbn [workflow_search explore];
    unfold explore_understand, explore_dependency, explore_pattern,
      explore_implement, explore_debug;
    rewrite banner_requests, !requests_print, requests_search;
    eexists; (split; [reflexivity|]).
  2-5: apply after_search_requests.
  destruct (fst (search h self query data_sources "auto" false)) as [found|e|c];
    [|now left|now left].
  rewrite requests_print, requests_lift.
  destruct (match found with
            | JList _ => Ok found
            | JObject _ => py_get found "results" (JList [])
            | _ => Ok (JList [])
            end) as [items|e]; [|now left].
  rewrite requests_lift.
  destruct (rbind (py_first5 items) (fun top => py_iter top)) as [shown|e];
    [|now left].
  destruct (show_locations_requests shown
              (fun _ => bind (print "")
                 (fun _ => bind (print "💬 Step 2: Getting expert explanation...")
                    (fun _ => bind (print "")
                       (fun _ => bind (chat h self
                                         ("Based on the search results for '" ++ query
                                          ++ "', explain how this works in the codebase. Focus on architecture, key components, and data flow.")
                                         (Some data_sources) None)
                          (fun chat_result => report h "📖 EXPLANATION:" chat_result)))))
              1) as [Hgo|Hstop].
  - rewrite Hgo, !requests_print. apply consult_requests.
  - left. exact Hstop.
Qed.

End Workflows.

(** C9, as stated, fails for [dependency]: its search asks for content. *)
Lemma dependency_search_requests_content :
  map req_query
    (requests
       (explore (Sample.serving (HttpOk Sample.chat_reply_text)
                   Sample.chat_reply_text Sample.chat_reply)
          Dependency Sample.client "lodash" ["frontend"])) =
  [Some [("Query", "How is lodash used? Show me import statements and usage examples");
         ("Mode", "auto");
         ("IncludeContent", "true");
         ("Names", "frontend")];
   None].
Proof. reflexivity. Qed.

(* ===================================================================== *)
(** * HTTP failures *)
(* ===================================================================== *)

Section HttpFailures.
Variable h : Host.

Lemma error_message_plain (text : string) :
  plain_error_body h text -> exists v, error_message h text = Ok v.
Proof.
  unfold error_message, py_or.
  intros [[msg ->] | [d ->]]; [eauto|].
  cbn [py_get rbind].
  destruct (truthy _); [eauto|].
  destruct (truthy _); eauto.
Qed.

Lemma http_error_raises (self : CodeAliveClient) (code : Z) (text : string) :
  exists e, http_error h self code text = Err e.
Proof.
  unfold http_error.
  destruct (error_message h text) as [v|e]; cbn [rbind]; [|eauto].
  destruct (code =? 401)%Z.
  { destruct (py_strip v); cbn [rbind]; eauto. }
  destruct (code =? 403)%Z; [eauto|].
  destruct (code =? 404)%Z; [eauto|].
  destruct (code =? 429)%Z; [eauto|].
  destruct (500 <=? code)%Z; eauto.
Qed.

Lemma _make_request_http_error self method endpoint params body code text :
  urlopen h (build_request self method endpoint params body) = HttpError code text ->
  _make_request h self method endpoint params body =
  (match http_error h self code text with
   | Ok v => Return v
   | Err e => Raise e
   end,
   [EvHttp (build_request self method endpoint params body)]).
Proof.
  intros Hopen. unfold _make_request, bind. cbn [emit fst snd].
  rewrite Hopen. destruct (http_error h self code text); reflexivity.
Qed.

(** X1. An HTTP error response, whatever its status and body, makes
    [_make_request] raise after that one request: nothing is returned and
    nothing is sent again. *)
Theorem http_error_raises_after_one_request self method endpoint params body
    code text :
  urlopen h (build_request self method endpoint params body) = HttpError code text ->
  exists e,
    _make_request h self method endpoint params body =
    (Raise e, [EvHttp (build_request self method endpoint params body)]).
Proof.
  intros Hopen. rewrite (_make_request_http_error _ _ _ _ _ _ _ Hopen).
  destruct (http_error_raises self code text) as [e ->]. eauto.
Qed.

(** X2. A 429 whose body is not JSON, or is a JSON object, is reported by
    the fixed rate-limit message, after one request and without a retry. *)
Theorem rate_limit_is_reported_once self method endpoint params body text :
  urlopen h (build_request self method endpoint params body) = HttpError 429 text ->
  plain_error_body h text ->
  _make_request h self method endpoint params body =
  (Raise (PlainException "Rate limit exceeded (429). Please wait before retrying."),
   [EvHttp (build_request self method endpoint params body)]).
Proof.
  intros Hopen Hbody. rewrite (_make_request_http_error _ _ _ _ _ _ _ Hopen).
  unfold http_error. destruct (error_message_plain _ Hbody) as [v ->].
  reflexivity.
Qed.


End HttpFailures.

Lemma http_error_raises_after_one_request_witness :
  exists e,
    _make_request (Sample.serving (HttpError 502 "Bad Gateway") "" JNull)
      Sample.client "GET" "/api/datasources/alive" None None =
    (Raise e, [EvHttp (build_request Sample.client "GET" "/api/datasources/alive"
                         None None)]).
Proof.
  apply (http_error_raises_after_one_request
           (Sample.serving (HttpError 502 "Bad Gateway") "" JNull)
           Sample.client "GET" "/api/datasources/alive" None None 502 "Bad Gateway").
  reflexivity.
Defined.

Lemma rate_limit_is_reported_once_witness :
  _make_request (Sample.serving (HttpError 429 "Too Many Requests") "" JNull)
    Sample.client "GET" "/api/search" None None =
  (Raise (PlainException "Rate limit exceeded (429). Please wait before retrying."),
   [EvHttp (build_request Sample.client "GET" "/api/search" None None)]).
Proof.
  apply (rate_limit_is_reported_once
           (Sample.serving (HttpError 429 "Too Many Requests") "" JNull)
           Sample.client "GET" "/api/search" None None "Too Many Requests").
  - reflexivity.
  - left. eexists. reflexivity.
Defined.


Example server_error_text :
  fst (_make_request (Sample.serving (HttpError 503 "Service Unavailable") "" JNull)
         Sample.client "GET" "/api/search" None None) =
  Raise (PlainException
           "Server error (503): Service Unavailable. The CodeAlive service may be temporarily unavailable.").
Proof. reflexivity. Qed.

(* ===================================================================== *)
(** * What [search] and [get_datasources] send *)
(* ===================================================================== *)

Section Operations.
Variable h : Host.


(** X4. The query string of a search holds [Query], [Mode] and
    [IncludeContent] (as [true] or [false]), then one [Names] pair per
    data source, in the order given. *)
Theorem search_sends_one_pair_per_name (self : CodeAliveClient) (query : string)
    (data_sources : list string) (mode : string) (include_content : bool) :
  map req_query (requests (search h self query data_sources mode include_content)) =
  [Some (search_pairs query mode include_content data_sources)].
Proof.
  unfold requests. rewrite search_snd. cbn [http_requests map].
  unfold build_request, search_pairs. cbn [req_query urlencode_doseq flat_map snd fst].
  now rewrite app_nil_r.
Qed.


(** [get_datasources] returns the decoded body as it is: whatever
    value the service lists on a 200 is the result, with nothing removed
    or reordered by the client. *)
Theorem get_datasources_returns_the_body (self : CodeAliveClient) (alive_only : bool)
    (text : string) (listed : json) :
  urlopen h (build_request self "GET"
               (if alive_only then "/api/datasources/alive" else "/api/datasources/all")
               None None) = HttpOk text ->
  PyStr.nonempty text = true ->
  json_loads h text = Decoded listed ->
  fst (get_datasources h self alive_only) = Return listed.
Proof.
  intros Hopen Hne Hdec. unfold get_datasources.
  now apply (_make_request_decoded h _ _ _ _ _ text).
Qed.

End Operations.

Lemma get_datasources_returns_the_body_witness :
  fst (get_datasources (Sample.serving (HttpOk "[...]") "[...]" Fixture.listed)
         Sample.client false) = Return Fixture.listed.
Proof.
  apply (get_datasources_returns_the_body
           (Sample.serving (HttpOk "[...]") "[...]" Fixture.listed)
           Sample.client false "[...]" Fixture.listed); reflexivity.
Defined.

(* ===================================================================== *)
(** * How the command-line front ends end *)
(* ===================================================================== *)

Lemma no_exit_ret {A} (a : A) : no_exit (ret a).
Proof. exact I. Qed.

Lemma no_exit_raise {A} (e : exn) : no_exit (@raise A e).
Proof. exact I. Qed.

Lemma no_exit_lift {A} (r : res A) : no_exit (lift r).
Proof. destruct r; exact I. Qed.

Lemma no_exit_emit (e : event) : no_exit (emit e).
Proof. exact I. Qed.

Lemma no_exit_bind {A B} (m : M A) (f : A -> M B) :
  no_exit m -> (forall a, no_exit (f a)) -> no_exit (bind m f).
Proof.
  unfold no_exit. intros Hm Hf. rewrite bind_fst.
  destruct (fst m) as [a|e|c]; [apply Hf|exact I|exact Hm].
Qed.

Lemma no_exit_try {A} (body : M A) (handler : exn -> M A) :
  no_exit body -> (forall e, no_exit (handler e)) -> no_exit (try_except body handler).
Proof.
  unfold no_exit, try_except. intros Hb Hh.
  destruct (fst body) as [a|e|c] eqn:E; cbn [fst]; rewrite ?E; trivial.
  apply Hh.
Qed.

(** Goals of the form [no_exit m], by the structure of [m]. *)
Ltac no_exit_tac :=
  repeat match goal with
         | |- no_exit (bind _ _) => apply no_exit_bind; [|intros]
         | |- no_exit (try_except _ _) => apply no_exit_try; [|intros]
         | |- no_exit (ret _) => exact I
         | |- no_exit (raise _) => exact I
         | |- no_exit (emit _) => exact I
         | |- no_exit (lift _) => apply no_exit_lift
         | H : no_exit ?m |- no_exit ?m => exact H
         end.

Section Endings.
Variable h : Host.

Lemma no_exit__get_key_from_keychain : no_exit (_get_key_from_keychain h).
Proof.
  unfold no_exit. destruct (_get_key_from_keychain_returns h) as [v ->]. exact I.
Qed.

Lemma no_exit___init__ (explicit url : option string) :
  no_exit (__init__ h explicit url).
Proof.
  unfold __init__, resolve_api_key. apply no_exit_bind.
  - destruct (opt_truthy explicit); [apply no_exit_ret|].
    destruct (opt_truthy _); [apply no_exit_ret|].
    apply no_exit__get_key_from_keychain.
  - intros [[|c k]|]; no_exit_tac.
Qed.

Lemma no_exit__make_request self method endpoint params body :
  no_exit (_make_request h self method endpoint params body).
Proof.
  unfold _make_request. apply no_exit_bind; [apply no_exit_emit|intros _].
  destruct (urlopen h _) as [text|code text|reason]; no_exit_tac.
  destruct (PyStr.nonempty text); no_exit_tac.
  destruct (json_loads h text); no_exit_tac.
Qed.

Lemma no_exit_search self query data_sources mode include_content :
  no_exit (search h self query data_sources mode include_content).
Proof. apply no_exit__make_request. Qed.

Lemma no_exit_get_datasources self alive_only :
  no_exit (get_datasources h self alive_only).
Proof. apply no_exit__make_request. Qed.

Lemma no_exit_chat self question data_sources conversation_id :
  no_exit (chat h self question data_sources conversation_id).
Proof.
  unfold chat. no_exit_tac. apply no_exit__make_request.
Qed.

Lemma no_exit_report title chat_result : no_exit (report h title chat_result).
Proof. unfold report, print. no_exit_tac. Qed.

Lemma no_exit_show_locations (items : list json) :
  forall idx, no_exit (show_locations h idx items).
Proof.
  induction items as [|result rest IH]; intros idx; cbn [show_locations].
  - apply no_exit_ret.
  - unfold print. no_exit_tac. apply IH.
Qed.

Lemma no_exit_explore_understand self query data_sources :
  no_exit (explore_understand h self query data_sources).
Proof.
  unfold explore_understand, banner, print. no_exit_tac.
  - apply no_exit_search.
  - apply no_exit_show_locations.
  - apply no_exit_chat.
  - apply no_exit_report.
Qed.

Lemma no_exit_explore_dependency self query data_sources :
  no_exit (explore_dependency h self query data_sources).
Proof.
  unfold explore_dependency, banner, print. no_exit_tac.
  - apply no_exit_search.
  - apply no_exit_chat.
  - apply no_exit_report.
Qed.

Lemma no_exit_explore_pattern self query data_sources :
  no_exit (explore_pattern h self query data_sources).
Proof.
  unfold explore_pattern, banner, print. no_exit_tac.
  - apply no_exit_search.
  - apply no_exit_chat.
  - apply no_exit_report.
Qed.

Lemma no_exit_explore_implement self query data_sources :
  no_exit (explore_implement h self query data_sources).
Proof.
  unfold explore_implement, banner, print. no_exit_tac.
  - apply no_exit_search.
  - apply no_exit_chat.
  - apply no_exit_report.
Qed.

Lemma no_exit_explore_debug self query data_sources :
  no_exit (explore_debug h self query data_sources).
Proof.
  unfold explore_debug, banner, print. no_exit_tac.
  - apply no_exit_search.
  - apply no_exit_chat.
  - apply no_exit_report.
Qed.

(** A [try] whose handler prints the error to stderr and exits with
    status 1, around a body that does not exit itself. *)
Lemma guarded_ends_cleanly (body : M unit) (message : exn -> string) :
  no_exit body ->
  ends_cleanly
    (try_except body (fun e => bind (eprint (message e)) (fun _ => sys_exit 1))).
Proof.
  unfold no_exit, ends_cleanly, try_except. intros Hb.
  destruct (fst body) as [[]|e|c] eqn:E; [left; exact E| |destruct Hb].
  right. right. cbn. split; [reflexivity|].
  exists (snd body), (message e). reflexivity.
Qed.

Lemma ends_cleanly_after_output (quiet : M unit) (run : M unit) :
  fst quiet = Return tt ->
  ends_cleanly run -> ends_cleanly (bind quiet (fun _ => run)).
Proof.
  unfold ends_cleanly. intros Hq. rewrite bind_fst, bind_snd, Hq.
  intros [H|[H|[H (before & line & Hs)]]]; [now left|now right; left|].
  right. right. split; [exact H|].
  exists (snd quiet ++ before)%list, line. now rewrite Hs, app_assoc.
Qed.

End Endings.

Lemma bind_ret {A B} (a : A) (f : A -> M B) : bind (Return a, []) f = f a.
Proof. unfold bind. cbn [fst snd app]. now destruct (f a). Qed.

Section SearchEnding.
Variables (h : Host) (doc : string).

(** The option loop of [search.py] ends with the options read, or with
    the exit of [--help]. *)
Lemma parse_args_outcome (n : nat) :
  forall args mode include_content data_sources,
    (length args <= n)%nat ->
    (exists mode' include_content' data_sources',
        parse_args doc args mode include_content data_sources =
        (Return (mode', include_content', data_sources'), []))
    \/ parse_args doc args mode include_content data_sources =
       (Exit 0, [EvStdout doc]).
Proof.
  induction n as [|n IH]; intros [|arg rest] mode ic ds Hlen;
    try (left; do 3 eexists; reflexivity); cbn [length] in Hlen; [lia|].
  cbn [parse_args].
  destruct (arg =? "--mode").
  - destruct rest as [|value rest'].
    + destruct (arg =? "--include-content"); [left; do 3 eexists; reflexivity|].
      destruct (arg =? "--help"); [now right|left; do 3 eexists; reflexivity].
    + apply IH. cbn [length] in Hlen. lia.
  - destruct (arg =? "--include-content"); [apply IH; lia|].
    destruct (arg =? "--help"); [now right|apply IH; lia].
Qed.

(** X6. [search.py] never ends with an exception: it returns, or exits
    with status 0 (after [--help]), or exits with status 1 right after
    reporting the error on stderr, whatever the arguments, the
    credentials and the service do. *)
Theorem search_cli_ends_cleanly (argv : list string) :
  ends_cleanly (main h doc argv).
Proof.
  unfold main. destruct (length argv <? 3)%nat.
  { right. right. split; [reflexivity|].
    exists [EvStderr "Error: Missing required arguments."]. eexists. reflexivity. }
  destruct (parse_args_outcome (length (skipn 2 argv)) (skipn 2 argv) "auto" false []
              (Nat.le_refl _)) as [(mode & ic & ds & E) | E]; rewrite E.
  2:{ right. left. reflexivity. }
  rewrite bind_ret. destruct ds as [|d ds].
  { right. right. split; [reflexivity|]. exists []. eexists. reflexivity. }
  apply (guarded_ends_cleanly _ (fun e => "❌ Error: " ++ exn_str e)).
  unfold eprint, print. no_exit_tac.
  - apply no_exit___init__.
  - destruct ic; no_exit_tac.
  - apply no_exit_search.
Qed.

End SearchEnding.

(* ===================================================================== *)
(** * [explore.py]: the query prefix and the command line *)
(* ===================================================================== *)

Lemma lower_app (s t : string) : PyStr.lower (s ++ t) = PyStr.lower s ++ PyStr.lower t.
Proof. induction s as [|c s IH]; simpl; [reflexivity|now rewrite IH]. Qed.

Lemma lower_length (s : string) : String.length (PyStr.lower s) = String.length s.
Proof. induction s as [|c s IH]; simpl; [reflexivity|now rewrite IH]. Qed.

Lemma str_drop_app (s t : string) : str_drop (String.length s) (s ++ t) = t.
Proof. induction s as [|c s IH]; simpl; [now destruct t|exact IH]. Qed.

Lemma prefix_app (p t : string) : prefix p (p ++ t) = true.
Proof.
  induction p as [|c p IH]; simpl; [now destruct t|].
  destruct (ascii_dec c c) as [_|Hc]; [exact IH|now destruct Hc].
Qed.

(** X7. A query that starts with a mode name and a colon, in any mix of
    upper and lower case, is split into that mode and the rest of the
    query with the blanks at both ends removed. *)
Theorem parse_query_reads_the_prefix (mode written rest : string) :
  In mode explore_py.MODES ->
  PyStr.lower written = mode ++ ":" ->
  explore_py.parse_query (written ++ rest) = (mode, PyStr.strip rest).
Proof.
  intros Hmode Hlower.
  assert (Hdrop : str_drop (String.length (mode ++ ":")) (written ++ rest) = rest).
  { rewrite <- Hlower, lower_length. apply str_drop_app. }
  unfold explore_py.parse_query, explore_py.MODES in *.
  cbn [explore_py.parse_query_from].
  rewrite lower_app, Hlower.
  cbn [In] in Hmode.
  destruct Hmode as [<-|[<-|[<-|[<-|[<-|[]]]]]]; rewrite Hdrop;
    repeat match goal with
           | |- context [prefix ?a (?a ++ ?t)] => rewrite (prefix_app a t)
           | |- context [prefix ?a (?b ++ ?t)] =>
               change (prefix a (b ++ t)) with false
           end;
    reflexivity.
Qed.

(** Whatever the query, [parse_query] answers with one of the five
    mode names, so that the dispatch in [main] always finds its branch. *)
Theorem parse_query_mode_is_known (query : string) :
  In (fst (explore_py.parse_query query)) explore_py.MODES.
Proof.
  unfold explore_py.parse_query, explore_py.MODES.
  cbn [explore_py.parse_query_from].
  repeat match goal with
         | |- context [if ?b then _ else _] => destruct b
         end; cbn [fst In]; tauto.
Qed.

Lemma parse_query_reads_the_prefix_witness :
  explore_py.parse_query ("Pattern:" ++ "  error handling ") =
  ("pattern", PyStr.strip "  error handling ").
Proof.
  apply (parse_query_reads_the_prefix "pattern" "Pattern:" "  error handling ").
  - cbn. tauto.
  - reflexivity.
Defined.

Example parse_query_examples :
  explore_py.parse_query "DEBUG: slow database queries" = ("debug", "slow database queries")
  /\ explore_py.parse_query "how does login work" = ("understand", "how does login work")
  /\ explore_py.parse_query " pattern:retries" = ("understand", " pattern:retries")
  /\ explore_py.parse_query "dependency:" = ("dependency", "")
  /\ explore_py.parse_query ("debug:" ++ Fixture.nbsp ++ "slow" ++ Fixture.nbsp)
     = ("debug", "slow").
Proof. repeat split; reflexivity. Qed.

Section ExploreCommand.
Variables (h : Host) (doc : string).

Lemma data_source_args_extends (n : nat) :
  forall args data_sources,
    (length args <= n)%nat ->
    exists more,
      explore_py.data_source_args args data_sources = (data_sources ++ more)%list.
Proof.
  induction n as [|n IH]; intros [|arg rest] acc Hlen; cbn [length] in Hlen.
  - exists []. cbn. now rewrite app_nil_r.
  - lia.
  - exists []. cbn. now rewrite app_nil_r.
  - cbn [explore_py.data_source_args].
    destruct (arg =? "--workspace"); [destruct rest as [|name rest']|].
    + exists [arg]. reflexivity.
    + cbv zeta. cbn [length] in Hlen.
      destruct (IH rest' (acc ++ [("workspace:" ++ name)%string])%list)
        as [more E]; [lia|].
      exists (("workspace:" ++ name) :: more). rewrite E. now rewrite <- app_assoc.
    + destruct (IH rest (acc ++ [arg])%list) as [more E]; [lia|].
      exists (arg :: more). rewrite E. now rewrite <- app_assoc.
Qed.

(** X8. With at least three arguments (and no [--help] in second place)
    the data sources that [explore.py] collects are never empty: every
    further argument becomes a data source.  So its exit for a missing
    data source is never taken, and [main] always enters the session. *)
Theorem explore_cli_always_has_a_data_source (script query arg : string)
    (rest : list string) :
  (query =? "--help") = false ->
  exists first others,
    explore_py.data_source_args (arg :: rest) [] = first :: others
    /\ explore_py.main h doc (script :: query :: arg :: rest) =
       try_except (explore_py.session h query (first :: others))
         (fun e => bind (eprint (PyStr.nl ++ "❌ Error: " ++ exn_str e))
                     (fun _ => sys_exit 1)).
Proof.
  intros Hhelp.
  assert (Hsrc : exists first others,
             explore_py.data_source_args (arg :: rest) [] = first :: others).
  { cbn [explore_py.data_source_args].
    destruct (arg =? "--workspace"); [destruct rest as [|name rest']|].
    - destruct (data_source_args_extends 0 [] ([] ++ [arg])%list (Nat.le_refl _))
        as [more E]. cbn in E |- *. eauto.
    - cbv zeta.
      destruct (data_source_args_extends (length rest') rest'
                  ([] ++ [("workspace:" ++ name)%string])%list (Nat.le_refl _))
        as [more E].
      rewrite E. cbn. eauto.
    - destruct (data_source_args_extends (length rest) rest ([] ++ [arg])%list
                  (Nat.le_refl _)) as [more E].
      rewrite E. cbn. eauto. }
  destruct Hsrc as (first & others & E). exists first, others.
  split; [exact E|].
  unfold explore_py.main. cbn [length Nat.ltb Nat.leb nth skipn].
  rewrite Hhelp, E. reflexivity.
Qed.

Lemma no_exit_explore_session (query : string) (data_sources : list string) :
  no_exit (explore_py.session h query data_sources).
Proof.
  unfold explore_py.session. apply no_exit_bind; [apply no_exit___init__|intros client].
  destruct (explore_py.parse_query query) as [mode actual_query].
  unfold print. no_exit_tac.
  destruct (mode =? "understand"); [apply no_exit_explore_understand|].
  destruct (mode =? "dependency"); [apply no_exit_explore_dependency|].
  destruct (mode =? "pattern"); [apply no_exit_explore_pattern|].
  destruct (mode =? "implement"); [apply no_exit_explore_implement|].
  destruct (mode =? "debug"); [apply no_exit_explore_debug|exact I].
Qed.

(** X9. [explore.py] ends with an exception in one case only: [--help]
    as first argument, with at least one more argument, on a standard
    output that cannot encode the docstring; the [UnicodeEncodeError] of
    that [print], which is outside the [try], then leaves [main] with
    nothing written.  In every other case it returns, or exits with
    status 0 (after [--help]), or exits with status 1 right after a line
    on stderr. *)
Theorem explore_cli_ends_cleanly_unless_help_fails (argv : list string) :
  match (3 <=? length argv)%nat && (nth 1 argv "" =? "--help"),
        stdout_refuses h doc with
  | true, Some msg =>
      explore_py.main h doc argv =
      (Raise (OtherException "UnicodeEncodeError" msg), [])
  | _, _ => ends_cleanly (explore_py.main h doc argv)
  end.
Proof.
  unfold explore_py.main. rewrite Nat.ltb_antisym.
  destruct (3 <=? length argv)%nat; cbn [negb andb].
  2:{ right. right. split; [reflexivity|].
      exists [EvStderr "Error: Missing required arguments.";
              EvStderr "Usage: python explore.py <mode:query> <data_source> [data_source2...]"].
      eexists. reflexivity. }
  destruct (nth 1 argv "" =? "--help").
  { destruct (stdout_refuses h doc) as [msg|]; [reflexivity|right; now left]. }
  assert (Hrun : forall sources,
             ends_cleanly
               match sources with
               | [] =>
                   bind (eprint "Error: At least one data source is required. Run datasources.py to see available sources.")
                     (fun _ => sys_exit 1)
               | _ :: _ =>
                   try_except (explore_py.session h (nth 1 argv "") sources)
                     (fun e => bind (eprint (PyStr.nl ++ "❌ Error: " ++ exn_str e))
                                 (fun _ => sys_exit 1))
               end).
  { intros [|d ds].
    - right. right. split; [reflexivity|]. exists []. eexists. reflexivity.
    - apply (guarded_ends_cleanly _ (fun e => PyStr.nl ++ "❌ Error: " ++ exn_str e)).
      apply no_exit_explore_session. }
  destruct (stdout_refuses h doc); apply Hrun.
Qed.

End ExploreCommand.

Lemma explore_cli_always_has_a_data_source_witness :
  exists first others,
    explore_py.data_source_args ["--workspace"; "platform-team"] [] = first :: others
    /\ explore_py.main Sample.bare "usage"
         ["explore.py"; "pattern:retries"; "--workspace"; "platform-team"] =
       try_except (explore_py.session Sample.bare "pattern:retries" (first :: others))
         (fun e => bind (eprint (PyStr.nl ++ "❌ Error: " ++ exn_str e))
                     (fun _ => sys_exit 1)).
Proof.
  apply (explore_cli_always_has_a_data_source Sample.bare "usage" "explore.py"
           "pattern:retries" "--workspace" ["platform-team"]).
  reflexivity.
Defined.

(** [--help] on a standard output that cannot encode the docstring. *)
Example explore_cli_help_fails :
  explore_py.main (Fixture.strict Sample.bare) "understand:<topic>  → Search"
    ["explore.py"; "--help"; "backend"] =
    (Raise (OtherException "UnicodeEncodeError"
              "'charmap' codec can't encode character '\u2192'"), [])
  /\ explore_py.main Sample.bare "understand:<topic>  → Search"
       ["explore.py"; "--help"; "backend"] =
    (Exit 0, [EvStdout "understand:<topic>  → Search"])
  /\ fst (explore_py.main (Fixture.strict Sample.bare) "understand:<topic>  → Search"
            ["explore.py"; "--help"]) = Exit 1.
Proof. repeat split; reflexivity. Qed.

Example explore_cli_workspace_option :
  explore_py.data_source_args ["backend"; "--workspace"; "platform-team"; "--workspace"] [] =
  ["backend"; "workspace:platform-team"; "--workspace"].
Proof. reflexivity. Qed.

(* ===================================================================== *)
(** * [chat.py]: the command line *)
(* ===================================================================== *)

Section ChatCommand.
Variables (h : Host) (doc : string).

Lemma chat_check_iff (question : string) (conversation_id : option string)
    (data_sources : list string) :
  (negb (opt_truthy conversation_id)
   && match data_sources with [] => true | _ :: _ => false end) = false
  <->
  exists body,
    chat_request_body question
      (match data_sources with [] => None | _ :: _ => Some data_sources end)
      conversation_id = Ok body.
Proof.
  destruct conversation_id as [[|c cs]|], data_sources as [|d ds];
    cbn; split; intros H; try reflexivity; try discriminate; eauto;
    destruct H as [body H]; discriminate.
Qed.

(** X10. The check [chat.py] makes on its parsed arguments before it
    builds a client is exactly the client's own: the arguments pass it if
    and only if [chat] accepts what [chat.py] then hands over, so [chat]
    never raises its [ValueError] under [chat.py]. *)
Theorem chat_cli_check_is_the_clients (question : string) (args : list string) :
  (negb (opt_truthy (fst (chat_py.parse_args args None [])))
   && match snd (chat_py.parse_args args None []) with
      | [] => true
      | _ :: _ => false
      end) = false
  <->
  exists body,
    chat_request_body question
      (match snd (chat_py.parse_args args None []) with
       | [] => None
       | _ :: _ => Some (snd (chat_py.parse_args args None []))
       end)
      (fst (chat_py.parse_args args None [])) = Ok body.
Proof.
  destruct (chat_py.parse_args args None []) as [conversation_id data_sources].
  apply chat_check_iff.
Qed.

Lemma no_exit_chat_session (question : string) (conversation_id : option string)
    (data_sources : list string) :
  no_exit (chat_py.session h question conversation_id data_sources).
Proof.
  unfold chat_py.session. apply no_exit_bind; [apply no_exit___init__|intros client].
  unfold eprint, print. no_exit_tac.
  - destruct conversation_id as [[|c cs]|]; exact I.
  - apply no_exit_chat.
  - match goal with |- no_exit (if ?b then _ else _) => destruct b end; no_exit_tac.
Qed.

(** X11. [chat.py] never ends with an exception: it returns, or exits
    with status 0 (after [--help]), or exits with status 1 right after a
    line on stderr. *)
Theorem chat_cli_ends_cleanly (argv : list string) :
  ends_cleanly (chat_py.main h doc argv).
Proof.
  unfold chat_py.main. destruct (length argv <? 2)%nat.
  { right. right. split; [reflexivity|].
    exists [EvStderr "Error: Missing required arguments."]. eexists. reflexivity. }
  destruct (nth 1 argv "" =? "--help"); [right; now left|].
  destruct (chat_py.parse_args _ _ _) as [conversation_id data_sources].
  destruct (negb _ && _).
  { right. right. split; [reflexivity|].
    exists [EvStderr "Error: Either data sources or --continue <conversation_id> is required."].
    eexists. reflexivity. }
  apply (guarded_ends_cleanly _ (fun e => "❌ Error: " ++ exn_str e)).
  apply no_exit_chat_session.
Qed.

End ChatCommand.

Example chat_cli_continue :
  let run := chat_py.main
               (Sample.serving (HttpOk Sample.chat_reply_text)
                  Sample.chat_reply_text Sample.chat_reply)
               "usage"
               ["chat.py"; "What about errors?"; "backend"; "--continue"; "conv_1"] in
  fst run = Return tt
  /\ map req_data (requests run) =
     [Some (JObject (continuation_body "What about errors?" "conv_1"))].
Proof. split; reflexivity. Qed.

Example chat_cli_without_target :
  chat_py.main Sample.bare "usage" ["chat.py"; "What about errors?"] =
  (Exit 1,
   [EvStderr "Error: Either data sources or --continue <conversation_id> is required.";
    EvStderr "Run datasources.py to see available sources."]).
Proof. reflexivity. Qed.

(* ===================================================================== *)
(** * [datasources.py] *)
(* ===================================================================== *)

Lemma requests_try {A} (body : M A) (handler : exn -> M A) :
  (forall e, requests (handler e) = []) ->
  requests (try_except body handler) = requests body.
Proof.
  intros Hh. unfold requests, try_except.
  destruct (fst body) as [a|e|c]; trivial.
  cbn [snd]. rewrite http_requests_app. unfold requests in Hh.
  now rewrite Hh, app_nil_r.
Qed.

Lemma resolve_api_key_offline (h : Host) (explicit : option string) :
  http_requests (snd (resolve_api_key h explicit)) = [].
Proof.
  unfold resolve_api_key. destruct (opt_truthy explicit); [reflexivity|].
  cbv zeta. destruct (opt_truthy _); [reflexivity|].
  apply _get_key_from_keychain_offline.
Qed.

(** Building a client sends nothing. *)
Lemma __init___offline (h : Host) (explicit url : option string) :
  http_requests (snd (__init__ h explicit url)) = [].
Proof.
  unfold __init__. rewrite bind_snd, http_requests_app, resolve_api_key_offline.
  cbn [app].
  destruct (fst (resolve_api_key h explicit)) as [[[|c k]|]|e|c]; reflexivity.
Qed.

Section Datasources.
Variables (h : Host) (dumps : json -> string) (doc : string).

Lemma of_type_objects (kind : string) (datasources : list json) :
  Forall is_object datasources ->
  exists kept,
    datasources_py.of_type kind datasources = Ok kept /\ Forall is_object kept.
Proof.
  induction 1 as [|ds rest Hds _ (kept & E & Hkept)]; cbn [datasources_py.of_type].
  - exists []. split; [reflexivity|constructor].
  - destruct ds as [| | | | | |d]; try destruct Hds. cbn [py_get rbind]. rewrite E.
    cbn [rbind]. destruct (py_eqb _ _); eexists; split; try reflexivity; auto.
    constructor; [exact I|exact Hkept].
Qed.

Lemma lines_of_objects (render : json -> res (list string)) (items : list json) :
  (forall d, exists block, render (JObject d) = Ok block) ->
  Forall is_object items ->
  exists blocks, datasources_py.lines_of render items = Ok blocks.
Proof.
  intros Hrender. induction 1 as [|item rest Hitem _ [blocks E]];
    cbn [datasources_py.lines_of]; [eauto|].
  destruct item as [| | | | | |d]; try destruct Hitem.
  destruct (Hrender d) as [block ->]. cbn [rbind]. rewrite E. cbn [rbind]. eauto.
Qed.

(** X12. On a non-empty list of JSON objects [format_datasources] always
    produces its text: a missing [name], [description], [url], [state] or
    [type] never makes it fail (the defaults of [.get] apply, and an
    entry of another type is left out of the listing). *)
Theorem format_datasources_accepts_objects (first : json) (others : list json) :
  Forall is_object (first :: others) ->
  exists text,
    datasources_py.format_datasources h dumps (JList (first :: others)) false = Ok text.
Proof.
  intros Hobj. unfold datasources_py.format_datasources.
  cbn [truthy negb py_len py_iter rbind].
  destruct (of_type_objects "Repository" _ Hobj) as (repos & -> & Hrepos).
  destruct (of_type_objects "Workspace" _ Hobj) as (workspaces & -> & Hws).
  cbn [rbind].
  assert (Hw : workspaces = [] \/
               exists blocks,
                 datasources_py.lines_of (datasources_py.workspace_lines h) workspaces
                 = Ok blocks).
  { right. apply lines_of_objects; [intros d; eexists; reflexivity|exact Hws]. }
  assert (Hr : repos = [] \/
               exists blocks,
                 datasources_py.lines_of (datasources_py.repository_lines h) repos
                 = Ok blocks).
  { right. apply lines_of_objects; [intros d; eexists; reflexivity|exact Hrepos]. }
  destruct workspaces as [|w ws], repos as [|r rs]; cbn [rbind];
    try (destruct Hw as [Hw|[wb Hw]]; [discriminate|rewrite Hw; cbn [rbind]]);
    try (destruct Hr as [Hr|[rb Hr]]; [discriminate|rewrite Hr; cbn [rbind]]);
    eauto.
Qed.

Lemma datasources_parse_args_outcome (args : list string) :
  forall alive_only as_json,
    (exists as_json',
        datasources_py.parse_args doc args alive_only as_json =
        (Return (alive_only && negb (existsb (String.eqb "--all") args), as_json'), []))
    \/ datasources_py.parse_args doc args alive_only as_json = (Exit 0, [EvStdout doc]).
Proof.
  induction args as [|arg rest IH]; intros alive_only as_json;
    cbn [datasources_py.parse_args existsb].
  - left. exists as_json. now rewrite andb_true_r.
  - rewrite (String.eqb_sym "--all" arg).
    destruct (arg =? "--all") eqn:Eall.
    + destruct (IH false as_json) as [[j E]|E]; [left|now right].
      exists j. rewrite E. cbn. now rewrite andb_false_r.
    + destruct (arg =? "--json"); [apply IH|].
      destruct (arg =? "--help"); [now right|apply IH].
Qed.



(** X14. [datasources.py] never ends with an exception: it returns, or
    exits with status 0 (after [--help]), or exits with status 1 right
    after a line on stderr. *)
Theorem datasources_cli_ends_cleanly (argv : list string) :
  ends_cleanly (datasources_py.main h dumps doc argv).
Proof.
  unfold datasources_py.main.
  destruct (datasources_parse_args_outcome (skipn 1 argv) true false) as [[j E]|E];
    rewrite E; [|right; now left].
  rewrite bind_ret.
  apply (guarded_ends_cleanly _ (fun e => "❌ Error: " ++ exn_str e)).
  unfold print. no_exit_tac.
  - apply no_exit___init__.
  - apply no_exit_get_datasources.
Qed.

End Datasources.

Lemma format_datasources_accepts_objects_witness :
  exists text,
    datasources_py.format_datasources Sample.bare Fixture.dumps
      (JList [JObject [("name", JString "backend")]; JObject []]) false = Ok text.
Proof.
  apply (format_datasources_accepts_objects Sample.bare Fixture.dumps
           (JObject [("name", JString "backend")]) [JObject []]).
  repeat constructor.
Defined.

(** An entry that is not an object stops the formatter. *)
Example format_datasources_rejects_a_name :
  datasources_py.format_datasources Sample.bare Fixture.dumps
    (JList [JString "backend"]) false = Err (AttributeError "str" "get").
Proof. reflexivity. Qed.

Example format_datasources_empty :
  datasources_py.format_datasources Sample.bare Fixture.dumps (JList []) false =
    Ok ("No data sources found." ++ PyStr.nl
        ++ "Add repositories at https://app.codealive.ai")
  /\ datasources_py.format_datasources Sample.bare Fixture.dumps (JObject []) false =
    Ok ("No data sources found." ++ PyStr.nl
        ++ "Add repositories at https://app.codealive.ai").
Proof. split; reflexivity. Qed.

(* ===================================================================== *)
(** * [check_auth.py] and [setup.py]: looking for the key *)
(* ===================================================================== *)

Section KeyLookup.
Variable h : Host.

(** The cases of a lookup in the credential store, after the
    environment: the platform, then what the store gives. *)
Ltac lookup_cases :=
  destruct (platform_system h =? "Darwin");
  [ cbn -[PyStr.strip KEY_NOT_CONFIGURED];
    destruct (subprocess_run h _) as [rc out|e];
    cbn -[PyStr.strip KEY_NOT_CONFIGURED];
    [destruct ((rc =? 0)%Z && _) eqn:?; cbn -[PyStr.strip KEY_NOT_CONFIGURED]|]
  | destruct (platform_system h =? "Linux");
    [ cbn -[PyStr.strip KEY_NOT_CONFIGURED];
      destruct (subprocess_run h _) as [rc out|e];
      cbn -[PyStr.strip KEY_NOT_CONFIGURED];
      [destruct ((rc =? 0)%Z && _) eqn:?; cbn -[PyStr.strip KEY_NOT_CONFIGURED]|]
    | cbn -[PyStr.strip KEY_NOT_CONFIGURED] ] ].

(** X15. [check_auth.py] sends no request, whatever the machine: it ends
    with status 0 after the line that the key was found, or with status 1
    after the setup instructions. *)
Theorem check_auth_stays_offline :
  requests (check_auth_py.main h) = []
  /\ exists before,
      check_auth_py.main h =
        (Exit 0, (before ++ [EvStdout "CodeAlive API key found. Ready to use."])%list)
      \/ check_auth_py.main h =
        (Exit 1, (before ++ [EvStdout (KEY_NOT_CONFIGURED (setup_path h))])%list).
Proof.
  unfold requests, check_auth_py.main, check_auth_py.find_key, try_except,
    run_subprocess, bind, emit, ret, raise, sys_exit, print.
  destruct (opt_truthy (getenv h "CODEALIVE_API_KEY")).
  { cbn. split; [reflexivity|]. exists []. now left. }
  lookup_cases; (split; [reflexivity|]);
    first [ exists []; cbn; tauto
          | eexists [_]; cbn; tauto ].
Qed.

(** X16. Off Windows, [check_auth.py] and the client agree: the check
    ends with status 0 exactly when a client can be built without an
    explicit key. *)
Theorem check_auth_agrees_with_client :
  (platform_system h =? "Windows") = false ->
  (fst (check_auth_py.main h) = Exit 0
   <-> exists client, fst (__init__ h None None) = Return client).
Proof.
  intros Hwin.
  unfold check_auth_py.main, check_auth_py.find_key, __init__, resolve_api_key,
    _get_key_from_keychain, _read_windows_credential, try_except,
    run_subprocess, bind, emit, ret, raise, sys_exit, print.
  cbn [opt_truthy]. rewrite Hwin.
  destruct (getenv h "CODEALIVE_API_KEY") as [[|c k]|]; cbn [opt_truthy PyStr.nonempty].
  2:{ cbn. split; eauto. }
  all: lookup_cases;
    try (destruct (PyStr.strip out) as [|c k];
         cbn -[KEY_NOT_CONFIGURED] in *;
         [rewrite andb_false_r in *; discriminate|]);
    split; intros H; try discriminate; eauto;
    destruct H as [client H]; discriminate.
Qed.

(** X17. On Windows [check_auth.py] looks at the environment variable
    only: without it the check ends with status 1 and never reads the
    Credential Manager, where the client would look next. *)
Theorem check_auth_skips_the_windows_store :
  platform_system h = "Windows" ->
  opt_truthy (getenv h "CODEALIVE_API_KEY") = false ->
  check_auth_py.main h = (Exit 1, [EvStdout (KEY_NOT_CONFIGURED (setup_path h))]).
Proof.
  intros Hwin Henv.
  unfold check_auth_py.main, check_auth_py.find_key. rewrite Henv, Hwin.
  reflexivity.
Qed.

(** X18. [setup.py] looks for an existing key exactly as the client does
    when it gets no explicit key: same sources, same order, same service
    name, same events, same result. *)
Theorem setup_reads_the_key_like_the_client :
  setup_py.read_existing_key h = resolve_api_key h None.
Proof.
  unfold setup_py.read_existing_key, resolve_api_key. cbn [opt_truthy].
  destruct (opt_truthy (getenv h "CODEALIVE_API_KEY")); reflexivity.
Qed.


End KeyLookup.

Lemma check_auth_agrees_with_client_witness :
  fst (check_auth_py.main Sample.with_keyring) = Exit 0
  <-> exists client, fst (__init__ Sample.with_keyring None None) = Return client.
Proof.
  apply (check_auth_agrees_with_client Sample.with_keyring). reflexivity.
Defined.

Lemma check_auth_skips_the_windows_store_witness :
  check_auth_py.main Fixture.windows_with_credential =
  (Exit 1,
   [EvStdout (KEY_NOT_CONFIGURED (setup_path Fixture.windows_with_credential))]).
Proof.
  apply (check_auth_skips_the_windows_store Fixture.windows_with_credential);
    reflexivity.
Defined.

(** The client does find the key that the check does not look for. *)
Example client_reads_the_windows_store :
  __init__ Fixture.windows_with_credential None None =
  (Return {| api_key := "ca-windows-key";
             base_url := "https://app.codealive.ai";
             timeout := 60 |},
   [EvCredRead "codealive-api-key"]).
Proof. reflexivity. Qed.

(** A base URL without a scheme: the [ValueError] leaves [verify_key],
    and nothing is sent. *)
Example verify_key_without_scheme :
  setup_py.verify_key (Fixture.strict Sample.bare) "ca-test-key" "app.codealive.ai" =
    (Raise (ValueError "unknown url type: 'app.codealive.ai/api/datasources/alive'"), [])
  /\ setup_py.verify_key (Fixture.strict Sample.bare) "ca-test-key"
       "https://app.codealive.ai" =
    (Return (false, "Cannot connect to https://app.codealive.ai: [Errno 111] Connection refused"),
     [EvHttp (setup_py.verify_request "ca-test-key" "https://app.codealive.ai")]).
Proof. split; reflexivity. Qed.

Example verify_key_counts_the_sources :
  fst (setup_py.verify_key (Sample.serving (HttpOk "[...]") "[...]" Fixture.listed)
         "ca-test-key" "https://app.codealive.ai") =
    Return (true, "Connected. 2 data sources available.")
  /\ fst (setup_py.verify_key
            (Sample.serving (HttpOk "[.]") "[.]" (JList [JObject []]))
            "ca-test-key" "https://app.codealive.ai") =
    Return (true, "Connected. 1 data source available.")
  /\ fst (setup_py.verify_key (Sample.serving (HttpError 401 "") "" JNull)
            "ca-test-key" "https://app.codealive.ai") =
    Return (false, "Authentication failed — API key is invalid or expired.").
Proof. repeat split; reflexivity. Qed.

(* ===================================================================== *)
(** * The command line of [api_client.py] *)
(* ===================================================================== *)

Section ClientCommand.
Variables (h : Host) (dumps : json -> string).

(** X20. In [api_client.py]'s own [main] the client is built outside the
    [try]: when no key can be resolved the [ValueError] leaves [main]
    as it is, whatever the command; no error line is printed and no exit
    status is chosen. *)
Theorem client_cli_lets_the_key_error_out (program command : string)
    (args : list string) (e : exn) :
  fst (__init__ h None None) = Raise e ->
  api_client_py.main h dumps (program :: command :: args) =
  (Raise e, snd (__init__ h None None)).
Proof.
  intros Hkey. unfold api_client_py.main. cbn [length Nat.ltb Nat.leb].
  unfold bind. now rewrite Hkey.
Qed.

Lemma search_args_flags_only (args : list string) :
  flags_only args ->
  forall mode include_content data_sources,
  exists mode' include_content',
    api_client_py.search_args args mode include_content data_sources =
    (mode', include_content', data_sources).
Proof.
  induction 1 as [|value rest _ IH|rest _ IH]; intros mode ic ds.
  - exists mode, ic. reflexivity.
  - destruct (IH value ic ds) as (m & i & E). exists m, i. exact E.
  - destruct (IH mode true ds) as (m & i & E). exists m, i. exact E.
Qed.

(** X21. [api_client.py]'s [search] command does not ask for a data
    source: when the arguments after the query are options only, the
    search request is sent all the same, with no [Names] pair. *)
Theorem client_cli_searches_without_sources (program query arg : string)
    (rest : list string) (client : CodeAliveClient) :
  flags_only (arg :: rest) ->
  fst (__init__ h None None) = Return client ->
  exists mode include_content,
    map req_query
      (requests (api_client_py.main h dumps
                   (program :: "search" :: query :: arg :: rest))) =
    [Some [("Query", query);
           ("Mode", mode);
           ("IncludeContent", if include_content : bool then "true" else "false")]].
Proof.
  intros Hflags Hkey.
  destruct (search_args_flags_only _ Hflags "auto" false []) as (mode & ic & E).
  exists mode, ic.
  unfold api_client_py.main. cbn [length Nat.ltb Nat.leb].
  rewrite requests_bind. unfold requests at 1. rewrite __init___offline, Hkey.
  cbn [app]. rewrite requests_try by reflexivity.
  unfold api_client_py.run_command.
  cbn [nth String.eqb Ascii.eqb Bool.eqb length Nat.ltb Nat.leb skipn].
  rewrite E. rewrite requests_search.
  assert (Hrest : match fst (search h client query [] mode ic) with
                  | Return a => requests (print (dumps a))
                  | _ => []
                  end = []).
  { now destruct (fst (search h client query [] mode ic)). }
  rewrite Hrest. destruct ic; reflexivity.
Qed.

End ClientCommand.

Lemma client_cli_lets_the_key_error_out_witness :
  api_client_py.main Sample.bare Fixture.dumps ["api_client.py"; "datasources"] =
  (Raise (ValueError (KEY_NOT_CONFIGURED (setup_path Sample.bare))),
   snd (__init__ Sample.bare None None)).
Proof.
  apply (client_cli_lets_the_key_error_out Sample.bare Fixture.dumps
           "api_client.py" "datasources" []).
  reflexivity.
Defined.

Lemma client_cli_searches_without_sources_witness :
  exists mode include_content,
    map req_query
      (requests (api_client_py.main (Sample.serving (HttpOk "[]") "[]" (JList []))
                   Fixture.dumps
                   ["api_client.py"; "search"; "login flow"; "--include-content"])) =
    [Some [("Query", "login flow");
           ("Mode", mode);
           ("IncludeContent", if include_content : bool then "true" else "false")]].
Proof.
  apply (client_cli_searches_without_sources
           (Sample.serving (HttpOk "[]") "[]" (JList [])) Fixture.dumps
           "api_client.py" "login flow" "--include-content" []
           {| api_key := "ca-test-key";
              base_url := "https://app.codealive.ai";
              timeout := 60 |}).
  - apply flags_content, flags_none.
  - reflexivity.
Defined.

(* ===================================================================== *)
(** * More on [format_search_results] and on HTTP 401 *)
(* ===================================================================== *)

Section Numbering.
Variable h : Host.


End Numbering.

Section Blocks.
Variable h : Host.

(** X23. Every block the formatter renders starts with its header line,
    which carries the number of the result. *)
Theorem result_block_starts_with_its_header (idx : nat) (result : json)
    (block : list string) :
  render_item h idx result = Ok block ->
  exists kind rest,
    block = (PyStr.nl ++ "--- Result #" ++ PyStr.of_nat idx ++ " [" ++ kind ++ "] ---")
            :: rest.
Proof. apply render_item_header. Qed.

(** X24. A 401 whose body is a JSON object with a non-empty string under
    [message] raises the authentication failure: its text holds the
    status 401, the server's message when it is not blank, and the
    settings page of the client's base URL. *)
Theorem auth_failure_carries_the_server_message self method endpoint params body
    text (answer : dict json) (c : ascii) (message : string) :
  urlopen h (build_request self method endpoint params body) = HttpError 401 text ->
  json_loads h text = Decoded (JObject answer) ->
  dict_get answer "message" = Some (JString (String c message)) ->
  fst (_make_request h self method endpoint params body) =
  Raise (PlainException
           ("Authentication failed (401)"
            ++ (if PyStr.nonempty (PyStr.strip (String c message))
                then ": " ++ String c message else "")
            ++ ". " ++ "Your API key may be invalid or expired. "
            ++ "Get a new key at: " ++ base_url self ++ "/settings/api-keys")).
Proof.
  intros Hopen Hdec Hmsg.
  apply (auth_failure_with_text h _ _ _ _ _ text); [exact Hopen|].
  unfold error_message, py_or. rewrite Hdec. cbn [py_get rbind]. now rewrite Hmsg.
Qed.

(** X25. Every request that [chat] sends asks for a complete answer: its
    body holds [stream] set to [False] and the question as the only
    message, from the user. *)
Theorem chat_never_streams (self : CodeAliveClient) (question : string)
    (data_sources : option (list string)) (conversation_id : option string) :
  Forall (fun r =>
            exists body,
              req_data r = Some (JObject body)
              /\ dict_get body "stream" = Some (JBool false)
              /\ dict_get body "messages" =
                 Some (JList [JObject [("role", JString "user");
                                       ("content", JString question)]]))
    (requests (chat h self question data_sources conversation_id)).
Proof.
  rewrite requests_chat.
  destruct conversation_id as [[|c cs]|], data_sources as [[|d ds]|];
    cbn; repeat constructor; eexists; repeat split; reflexivity.
Qed.

(** X26. Whatever the query, the session of [explore.py] runs one of the
    five workflows, on the query that [parse_query] returns: the chain of
    comparisons on the mode never falls through without doing anything. *)
Theorem explore_session_runs_a_workflow (query : string)
    (data_sources : list string) :
  exists mode : workflow,
    explore_py.session h query data_sources =
    bind (__init__ h None None)
      (fun client =>
         bind (print (PyStr.nl ++ PyStr.repeat "=" 80))
           (fun _ =>
              bind (print "🚀 CodeAlive Explorer")
                (fun _ =>
                   bind (print (PyStr.repeat "=" 80 ++ PyStr.nl))
                     (fun _ =>
                        explore h mode client
                          (snd (explore_py.parse_query query)) data_sources)))).
Proof.
  unfold explore_py.session, explore_py.parse_query, explore_py.MODES.
  cbn [explore_py.parse_query_from].
  destruct (prefix _ _); [exists Understand; reflexivity|].
  destruct (prefix _ _); [exists Dependency; reflexivity|].
  destruct (prefix _ _); [exists Pattern; reflexivity|].
  destruct (prefix _ _); [exists Implement; reflexivity|].
  destruct (prefix _ _); [exists Debug; reflexivity|].
  exists Understand. reflexivity.
Qed.

End Blocks.

Lemma result_block_starts_with_its_header_witness :
  exists kind rest,
    [PyStr.nl ++ "--- Result #7 [Chunk] ---"; "  File: src/app.py"] =
    (PyStr.nl ++ "--- Result #" ++ PyStr.of_nat 7 ++ " [" ++ kind ++ "] ---") :: rest.
Proof.
  apply (result_block_starts_with_its_header Sample.bare 7
           (JObject [("kind", JString "Chunk");
                     ("identifier", JString "backend::src/app.py::12")])).
  reflexivity.
Defined.

(** A message of blanks only, here a no-break space, is left out. *)
Example auth_failure_blank_message :
  fst (_make_request
         (Sample.serving (HttpError 401 "{...}") "{...}"
            (JObject [("message", JString Fixture.nbsp)]))
         Sample.client "GET" "/api/datasources/alive" None None) =
  Raise (PlainException
           ("Authentication failed (401). Your API key may be invalid or expired. "
            ++ "Get a new key at: https://app.codealive.ai/settings/api-keys")).
Proof. reflexivity. Qed.

Lemma auth_failure_carries_the_server_message_witness :
  fst (_make_request
         (Sample.serving (HttpError 401 Sample.flat_error_text)
            Sample.flat_error_text Sample.flat_error)
         Sample.client "GET" "/api/datasources/alive" None None) =
  Raise (PlainException
           ("Authentication failed (401)"
            ++ (if PyStr.nonempty (PyStr.strip "Invalid API key")
                then ": " ++ "Invalid API key" else "")
            ++ ". " ++ "Your API key may be invalid or expired. "
            ++ "Get a new key at: " ++ base_url Sample.client ++ "/settings/api-keys")).
Proof.
  apply (auth_failure_carries_the_server_message
           (Sample.serving (HttpError 401 Sample.flat_error_text)
              Sample.flat_error_text Sample.flat_error)
           Sample.client "GET" "/api/datasources/alive" None None
           Sample.flat_error_text [("message", JString "Invalid API key")]
           "I"%char "nvalid API key"); reflexivity.
Defined.

(* ===================================================================== *)
(** * [setup.py]: storing a key *)
(* ===================================================================== *)

Section SetupRun.
Variable h : Host.
Variable run_with_input : list string -> string -> proc_result.
Variable getpass : string -> setup_py.prompt_result.
Variable doc : string.


Lemma sbind_snd {A B} (m : setup_py.SM A) (f : A -> setup_py.SM B) :
  snd (setup_py.sbind m f) =
  (snd m ++ match fst m with
            | Return a => snd (f a)
            | _ => []
            end)%list.
Proof.
  unfold setup_py.sbind. destruct (fst m); simpl; trivial; now rewrite app_nil_r.
Qed.

Lemma told_fst {A} (m : M A) : fst (setup_py.told m) = fst m.
Proof. reflexivity. Qed.

Lemma store_attempts_app (t u : list setup_py.setup_event) :
  store_attempts (t ++ u) = (store_attempts t ++ store_attempts u)%list.
Proof.
  induction t as [|e t IH]; [reflexivity|].
  cbn [app store_attempts]. destruct (stored_by e); cbn [app]; now rewrite IH.
Qed.

Lemma prompts_app (t u : list setup_py.setup_event) :
  prompts (t ++ u) = (prompts t ++ prompts u)%list.
Proof.
  induction t as [|e t IH]; [reflexivity|].
  destruct e; cbn [app prompts]; now rewrite IH.
Qed.

Lemma attempts_sbind {A B} (m : setup_py.SM A) (f : A -> setup_py.SM B) :
  attempts (setup_py.sbind m f) =
  (attempts m ++ match fst m with
                 | Return a => attempts (f a)
                 | _ => []
                 end)%list.
Proof. unfold attempts. rewrite sbind_snd, store_attempts_app. now destruct (fst m). Qed.

Lemma asked_sbind {A B} (m : setup_py.SM A) (f : A -> setup_py.SM B) :
  asked (setup_py.sbind m f) =
  (asked m ++ match fst m with
              | Return a => asked (f a)
              | _ => []
              end)%list.
Proof. unfold asked. rewrite sbind_snd, prompts_app. now destruct (fst m). Qed.

Lemma attempts_quiet_tail {A B} (m : setup_py.SM A) (f : A -> setup_py.SM B) :
  (forall a, attempts (f a) = []) -> attempts (setup_py.sbind m f) = attempts m.
Proof.
  intros Hf. rewrite attempts_sbind.
  destruct (fst m); now rewrite ?Hf, app_nil_r.
Qed.

Lemma asked_quiet_tail {A B} (m : setup_py.SM A) (f : A -> setup_py.SM B) :
  (forall a, asked (f a) = []) -> asked (setup_py.sbind m f) = asked m.
Proof.
  intros Hf. rewrite asked_sbind.
  destruct (fst m); now rewrite ?Hf, app_nil_r.
Qed.

Lemma attempts_sprint {B} (line : string) (f : unit -> setup_py.SM B) :
  attempts (setup_py.sbind (setup_py.sprint line) f) = attempts (f tt).
Proof. reflexivity. Qed.

Lemma asked_sprint {B} (line : string) (f : unit -> setup_py.SM B) :
  asked (setup_py.sbind (setup_py.sprint line) f) = asked (f tt).
Proof. reflexivity. Qed.

Lemma print_ready_quiet :
  fst setup_py.print_ready = Return tt
  /\ attempts setup_py.print_ready = [] /\ asked setup_py.print_ready = [].
Proof. repeat split; reflexivity. Qed.

(** Looking for an existing key stores nothing and asks nothing, and
    always comes back. *)
Lemma read_existing_key_quiet :
  (exists found, fst (setup_py.read_existing_key h) = Return found)
  /\ attempts (setup_py.told (setup_py.read_existing_key h)) = []
  /\ asked (setup_py.told (setup_py.read_existing_key h)) = [].
Proof.
  unfold setup_py.read_existing_key, _read_windows_credential, try_except,
    run_subprocess, setup_py.told, bind, emit, ret, raise.
  destruct (opt_truthy (getenv h "CODEALIVE_API_KEY")); [cbn; eauto|].
  destruct (platform_system h =? "Darwin");
    [cbn -[PyStr.strip]; destruct (subprocess_run h _) as [rc out|e];
     cbn -[PyStr.strip]; [destruct ((rc =? 0)%Z && _); cbn -[PyStr.strip]|]; eauto|].
  destruct (platform_system h =? "Linux");
    [cbn -[PyStr.strip]; destruct (subprocess_run h _) as [rc out|e];
     cbn -[PyStr.strip]; [destruct ((rc =? 0)%Z && _); cbn -[PyStr.strip]|]; eauto|].
  destruct (platform_system h =? "Windows"); [|cbn; eauto].
  cbn. destruct (cred_read h _); cbn; eauto.
Qed.

(** Verifying a key stores nothing and asks nothing; it returns its
    verdict, or raises for a URL that cannot be requested. *)
Lemma verify_key_quiet (key url : string) :
  ((exists ok message, fst (setup_py.verify_key h key url) = Return (ok, message))
   \/ exists e, fst (setup_py.verify_key h key url) = Raise e)
  /\ attempts (setup_py.told (setup_py.verify_key h key url)) = []
  /\ asked (setup_py.told (setup_py.verify_key h key url)) = [].
Proof.
  unfold setup_py.verify_key, setup_py.told, bind, emit, ret, raise.
  destruct (url_refused h _) as [msg|]; [cbn; eauto|].
  cbn [fst snd app].
  destruct (urlopen h _) as [text|code text|reason].
  - destruct (json_loads h text); cbn; eauto 6.
  - destruct (code =? 401)%Z; cbn; eauto 6.
  - cbn. eauto 6.
Qed.

(** [store_key] writes the key it is given, or nothing. *)
Lemma store_key_attempts (key : string) :
  (exists stored, fst (setup_py.store_key h run_with_input key) = Return stored)
  /\ (attempts (setup_py.store_key h run_with_input key) = []
      \/ attempts (setup_py.store_key h run_with_input key) = [key])
  /\ asked (setup_py.store_key h run_with_input key) = [].
Proof.
  unfold setup_py.store_key, setup_py.stry, setup_py.run_stdin, setup_py.told,
    setup_py.sbind, setup_py.sret, run_subprocess, bind, emit, ret, raise.
  destruct (platform_system h =? "Darwin").
  { cbn. destruct (subprocess_run h _) as [rc out|e]; cbn; [|eauto].
    destruct (subprocess_run h _) as [rc' out'|e]; cbn; eauto. }
  destruct (platform_system h =? "Linux").
  { destruct (run_with_input _ key); cbn; eauto. }
  destruct (platform_system h =? "Windows"); [|cbn; eauto].
  cbn. destruct (subprocess_run h _) as [rc out|e]; cbn; eauto.
Qed.

Lemma store_step_attempts (key : string) (env_mode : bool) :
  (attempts (setup_py.store_step h run_with_input key env_mode) = []
   \/ attempts (setup_py.store_step h run_with_input key env_mode) = [key])
  /\ (env_mode = true ->
      attempts (setup_py.store_step h run_with_input key env_mode) = [])
  /\ asked (setup_py.store_step h run_with_input key env_mode) = [].
Proof.
  unfold setup_py.store_step, setup_py.print_step.
  rewrite attempts_sprint, asked_sprint.
  destruct env_mode.
  { repeat split; try reflexivity. now left. }
  rewrite attempts_quiet_tail, asked_quiet_tail by reflexivity.
  rewrite attempts_quiet_tail, asked_quiet_tail by (intros []; reflexivity).
  destruct (store_key_attempts key) as (_ & Ha & Hq).
  split; [exact Ha|split; [discriminate|exact Hq]].
Qed.

Lemma new_key_steps_attempts (api_key_arg : option string) (env_mode : bool) :
  Forall (verified h)
    (attempts (setup_py.new_key_steps h run_with_input getpass
                 (getenv_or h "CODEALIVE_BASE_URL" setup_py.DEFAULT_BASE_URL)
                 api_key_arg env_mode))
  /\ (env_mode = true ->
      attempts (setup_py.new_key_steps h run_with_input getpass
                  (getenv_or h "CODEALIVE_BASE_URL" setup_py.DEFAULT_BASE_URL)
                  api_key_arg env_mode) = []).
Proof.
  unfold setup_py.new_key_steps, setup_py.print_step.
  rewrite !attempts_sprint, attempts_sbind.
  set (url := getenv_or h "CODEALIVE_BASE_URL" setup_py.DEFAULT_BASE_URL).
  assert (Hkey : forall key : string,
             Forall (verified h)
               (attempts
                  (if negb (PyStr.nonempty key)
                   then setup_py.sbind
                          (setup_py.sprint "      No key provided. Setup cancelled.")
                          (fun _ => setup_py.sexit 1)
                   else setup_py.sbind (setup_py.told (setup_py.verify_key h key url))
                          (fun verdict =>
                             if negb (fst verdict)
                             then setup_py.sbind
                                    (setup_py.sprint
                                       (PyStr.nl ++ "      Key verification failed: "
                                        ++ snd verdict))
                                    (fun _ => setup_py.sbind
                                       (setup_py.sprint
                                          "      Please check your key and try again.")
                                       (fun _ => setup_py.sexit 1))
                             else setup_py.sbind
                                    (setup_py.sprint
                                       ("      Key verified. " ++ snd verdict))
                                    (fun _ => setup_py.store_step h run_with_input
                                                key env_mode))))
             /\ (env_mode = true ->
                 attempts
                   (if negb (PyStr.nonempty key)
                    then setup_py.sbind
                           (setup_py.sprint "      No key provided. Setup cancelled.")
                           (fun _ => setup_py.sexit 1)
                    else setup_py.sbind (setup_py.told (setup_py.verify_key h key url))
                           (fun verdict =>
                              if negb (fst verdict)
                              then setup_py.sbind
                                     (setup_py.sprint
                                        (PyStr.nl ++ "      Key verification failed: "
                                         ++ snd verdict))
                                     (fun _ => setup_py.sbind
                                        (setup_py.sprint
                                           "      Please check your key and try again.")
                                        (fun _ => setup_py.sexit 1))
                              else setup_py.sbind
                                     (setup_py.sprint
                                        ("      Key verified. " ++ snd verdict))
                                     (fun _ => setup_py.store_step h run_with_input
                                                 key env_mode))) = [])).
  { intros key. destruct (negb (PyStr.nonempty key)).
    { split; [constructor|reflexivity]. }
    rewrite attempts_sbind.
    destruct (verify_key_quiet key url) as ([(ok & message & Hv)|(e & Hv)] & -> & _);
      cbn [app]; rewrite !told_fst, Hv; cbn [fst snd].
    2:{ split; [constructor|reflexivity]. }
    destruct ok; cbn [negb].
    2:{ split; [constructor|reflexivity]. }
    rewrite attempts_sprint.
    destruct (store_step_attempts key env_mode) as ([-> | ->] & Henv & _).
    - split; [constructor|reflexivity].
    - split; [|intros E; specialize (Henv E); discriminate].
      constructor; [|constructor]. exists message. exact Hv. }
  destruct api_key_arg as [[|c k]|].
  2:{ cbn [setup_py.sret fst snd store_attempts attempts app]. apply Hkey. }
  all: destruct (getpass _) as [text| |e];
    cbn [setup_py.sret setup_py.sbind setup_py.sprint setup_py.told setup_py.sexit
         print emit fst snd map app attempts store_attempts stored_by];
    first [ apply Hkey | split; [constructor|reflexivity] ].
Qed.

Lemma setup_parse_args_outcome (args : list string) :
  forall api_key_arg env_mode,
    (exists key,
        setup_py.parse_args doc args api_key_arg env_mode =
        (Return (key, env_mode || existsb (String.eqb "--env") args), []))
    \/ setup_py.parse_args doc args api_key_arg env_mode =
       (Exit 0, [setup_py.Base (EvStdout doc)]).
Proof.
  induction args as [|arg rest IH]; intros key env;
    cbn [setup_py.parse_args existsb].
  - left. exists key. now rewrite orb_false_r.
  - rewrite (String.eqb_sym "--env" arg).
    destruct (arg =? "--key") eqn:Ekey.
    + apply String.eqb_eq in Ekey. subst arg. cbn [String.eqb Ascii.eqb Bool.eqb orb].
      destruct rest as [|next rest']; [apply IH|].
      apply IH.
    + destruct (arg =? "--env").
      * destruct (IH key true) as [[k E]|E]; [left|now right].
        exists k. rewrite E. now rewrite orb_true_r.
      * destruct (arg =? "--help"); [now right|]. apply IH.
Qed.

(** X27. [setup.py] writes a key to a credential store only after
    [verify_key] has accepted that very key: no run starts a storing
    command ([security add-generic-password], [secret-tool store],
    [cmdkey]) for a key that was not verified. *)
Theorem setup_stores_only_verified_keys (argv : list string) :
  Forall (verified h)
    (attempts (setup_py.main h run_with_input getpass doc argv)).
Proof.
  unfold setup_py.main, setup_py.print_step. rewrite attempts_sbind.
  destruct (setup_parse_args_outcome (skipn 1 argv) None false) as [[key E]|E];
    rewrite E; [|constructor].
  cbn [fst snd attempts store_attempts app].
  rewrite !attempts_sprint, attempts_sbind.
  destruct read_existing_key_quiet as ([found Hf] & -> & _). cbn [app].
  rewrite !told_fst, Hf.
  destruct found as [[|c k]|]; try apply new_key_steps_attempts.
  rewrite attempts_sbind.
  destruct (verify_key_quiet (String c k)
              (getenv_or h "CODEALIVE_BASE_URL" setup_py.DEFAULT_BASE_URL))
    as ([(ok & message & Hv)|(e & Hv)] & -> & _);
    cbn [app]; rewrite !told_fst, Hv; cbn [fst snd]; [|constructor].
  destruct ok.
  - rewrite attempts_sprint. destruct print_ready_quiet as (_ & -> & _). constructor.
  - rewrite !attempts_sprint. apply new_key_steps_attempts.
Qed.

(** X28. With [--env] among the arguments [setup.py] never starts a
    storing command: the key is shown as an [export] line and the
    credential store is left alone. *)
Theorem setup_env_mode_stores_nothing (argv : list string) :
  existsb (String.eqb "--env") (skipn 1 argv) = true ->
  attempts (setup_py.main h run_with_input getpass doc argv) = [].
Proof.
  intros Henv.
  unfold setup_py.main, setup_py.print_step. rewrite attempts_sbind.
  destruct (setup_parse_args_outcome (skipn 1 argv) None false) as [[key E]|E];
    rewrite E; [|reflexivity].
  rewrite Henv. cbn [fst snd attempts store_attempts app orb].
  rewrite !attempts_sprint, attempts_sbind.
  destruct read_existing_key_quiet as ([found Hf] & -> & _). cbn [app].
  rewrite !told_fst, Hf.
  destruct found as [[|c k]|];
    try (now apply new_key_steps_attempts).
  rewrite attempts_sbind.
  destruct (verify_key_quiet (String c k)
              (getenv_or h "CODEALIVE_BASE_URL" setup_py.DEFAULT_BASE_URL))
    as ([(ok & message & Hv)|(e & Hv)] & -> & _);
    cbn [app]; rewrite !told_fst, Hv; cbn [fst snd]; [|reflexivity].
  destruct ok.
  - rewrite attempts_sprint. now destruct print_ready_quiet as (_ & -> & _).
  - rewrite !attempts_sprint. now apply new_key_steps_attempts.
Qed.



End SetupRun.

Lemma setup_env_mode_stores_nothing_witness :
  attempts (setup_py.main Fixture.fresh_online Fixture.accepting_store Fixture.pasting
              "usage" ["setup.py"; "--env"]) = [].
Proof.
  apply (setup_env_mode_stores_nothing Fixture.fresh_online Fixture.accepting_store
           Fixture.pasting "usage" ["setup.py"; "--env"]).
  reflexivity.
Defined.


(** A first run: the pasted key is stripped, verified, then stored. *)
Example setup_stores_a_pasted_key :
  let run := setup_py.main Fixture.fresh_online Fixture.accepting_store
               Fixture.pasting "usage" ["setup.py"] in
  fst run = Return tt
  /\ asked run = ["      Paste your API key (input is hidden): "]
  /\ attempts run = ["ca-new-key"]
  /\ map req_headers
       (http_requests
          (flat_map (fun e => match e with setup_py.Base b => [b] | _ => [] end)
             (snd run))) =
     [[("Authorization", "Bearer ca-new-key"); ("Content-Type", "application/json")]].
Proof. repeat split; reflexivity. Qed.

(** [--key] does not skip its value: a value that is itself an option
    is read as that option too. *)
Example setup_key_value_is_examined :
  setup_py.parse_args "usage" ["--key"; "--env"] None false =
  (Return (Some "--env", true), []).
Proof. reflexivity. Qed.
